(** * Three-body simulator: the equations of motion, the integration call
      and the playback step of [3bodyproblem.py], embedded and verified.

    The Python module is modelled shallowly.  Floats are kept abstract behind
    the [Scalar] interface, so that the same definitions run on IEEE binary64
    ([float_Scalar], executable) and on the reals ([R_Scalar], where the
    algebraic statements are proved).  Python exceptions are values of
    [exn], carried by the [result] monad.  One-dimensional numpy arrays are
    lists, the two-dimensional [result.y] is a list of rows. *)

From Stdlib Require Import List ZArith Lia Bool.
From Stdlib Require String.
From Stdlib Require Import Reals Lra.
From Stdlib Require PrimFloat Uint63.
Import ListNotations.

Set Implicit Arguments.
Set Warnings "-abstract-large-number".

(** ** Exceptions and the error monad *)

Inductive exn : Type :=
| IndexError
| ValueError
| ZeroDivisionError.

Inductive result (A : Type) : Type :=
| Ok (a : A)
| Raise (e : exn).

Arguments Ok {A} a.
Arguments Raise {A} e.

Definition bind {A B : Type} (c : result A) (k : A -> result B) : result B :=
  match c with
  | Ok a => k a
  | Raise e => Raise e
  end.

Notation "x <- c ;; k" := (bind c (fun x => k))
  (at level 61, c at next level, right associativity).

(** ** Scalars

    The arithmetic the program performs on numbers: conversion of an integer,
    the four operations, square root and [x ** n] for a literal exponent. *)

Class Scalar (T : Type) : Type := {
  of_Z : Z -> T;
  fadd : T -> T -> T;
  fsub : T -> T -> T;
  fmul : T -> T -> T;
  fdiv : T -> T -> T;
  fsqrt : T -> T;
  fpow : T -> nat -> T
}.

#[export] Instance R_Scalar : Scalar R := {|
  of_Z := IZR;
  fadd := Rplus;
  fsub := Rminus;
  fmul := Rmult;
  fdiv := Rdiv;
  fsqrt := sqrt;
  fpow := pow
|}.

Definition float_of_Z (z : Z) : PrimFloat.float :=
  match z with
  | Z0 => PrimFloat.of_uint63 (Uint63.of_Z 0)
  | Zpos _ => PrimFloat.of_uint63 (Uint63.of_Z z)
  | Zneg p => PrimFloat.opp (PrimFloat.of_uint63 (Uint63.of_Z (Zpos p)))
  end.

(* [x ** n] by repeated rounded products; it agrees with the C library's
   [pow] wherever the products are exact, in particular at zeros,
   infinities and NaN. *)
Fixpoint float_pow (x : PrimFloat.float) (n : nat) : PrimFloat.float :=
  match n with
  | O => PrimFloat.of_uint63 (Uint63.of_Z 1)
  | S O => x
  | S k => PrimFloat.mul x (float_pow x k)
  end.

#[export] Instance float_Scalar : Scalar PrimFloat.float := {|
  of_Z := float_of_Z;
  fadd := PrimFloat.add;
  fsub := PrimFloat.sub;
  fmul := PrimFloat.mul;
  fdiv := PrimFloat.div;
  fsqrt := PrimFloat.sqrt;
  fpow := float_pow
|}.

(** ** Python sequences *)

Module py.
Section Sequences.
Context {A : Type}.

(* [l[i]] for a literal index [i >= 0]. *)
Definition getitem (l : list A) (i : nat) : result A :=
  match nth_error l i with
  | Some a => Ok a
  | None => Raise IndexError
  end.

(* [l[start:stop]] for literal bounds [0 <= start], [0 <= stop]:
   both are clamped to the length. *)
Definition slice (l : list A) (start stop : nat) : list A :=
  firstn (stop - start) (skipn start l).

(* Normalisation of a possibly negative index against a length. *)
Definition index (n : nat) (k : Z) : result nat :=
  if (0 <=? k)%Z && (k <? Z.of_nat n)%Z then Ok (Z.to_nat k)
  else if (- Z.of_nat n <=? k)%Z && (k <? 0)%Z then Ok (Z.to_nat (Z.of_nat n + k))
  else Raise IndexError.

(* [l[:stop]] for any integer [stop]. *)
Definition slice_to (l : list A) (stop : Z) : list A :=
  if (stop <? 0)%Z then firstn (Z.to_nat (Z.of_nat (length l) + stop)) l
  else firstn (Z.to_nat stop) l.

(* [l[i] = a] on a list held by reference; [i] is in range where used. *)
Fixpoint setitem (l : list A) (i : nat) (a : A) : list A :=
  match l, i with
  | [], _ => []
  | _ :: xs, O => a :: xs
  | x :: xs, S j => x :: setitem xs j a
  end.
End Sequences.

(* [a % b] on integers: the sign follows the divisor. *)
Definition mod_ (a b : Z) : result Z :=
  if (b =? 0)%Z then Raise ZeroDivisionError else Ok (a mod b)%Z.

(* [a // b] on integers: the quotient is rounded towards minus infinity. *)
Definition floordiv (a b : Z) : result Z :=
  if (b =? 0)%Z then Raise ZeroDivisionError else Ok (a / b)%Z.
End py.

(** ** The numpy operations the program uses *)

Module np.
Section Arrays.
Context {T : Type} `{Scalar T}.

Fixpoint zip_with (op : T -> T -> T) (a b : list T) : list T :=
  match a, b with
  | x :: xs, y :: ys => op x y :: zip_with op xs ys
  | _, _ => []
  end.

(* A binary ufunc on two one-dimensional arrays: equal shapes go
   elementwise, a shape (1,) operand is stretched, anything else cannot
   be broadcast. *)
Definition broadcast (op : T -> T -> T) (a b : list T) : result (list T) :=
  if Nat.eqb (length a) (length b) then Ok (zip_with op a b)
  else match a, b with
       | [x], _ => Ok (map (op x) b)
       | _, [y] => Ok (map (fun x => op x y) a)
       | _, _ => Raise ValueError
       end.

Definition add (a b : list T) : result (list T) := broadcast fadd a b.
Definition subtract (a b : list T) : result (list T) := broadcast fsub a b.

(* [s * a] and [a / s] for a scalar [s]. *)
Definition scalar_mul (s : T) (a : list T) : list T := map (fmul s) a.
Definition div_scalar (a : list T) (s : T) : list T := map (fun x => fdiv x s) a.

Definition sum (a : list T) : T :=
  match a with
  | [] => of_Z 0
  | x :: xs => fold_left fadd xs x
  end.

Definition dot (a b : list T) : T := sum (zip_with fmul a b).

(* [np.linalg.norm] of a one-dimensional array: [sqrt(x.dot(x))]. *)
Definition linalg_norm (a : list T) : T := fsqrt (dot a a).

Definition concatenate (parts : list (list T)) : list T := concat parts.

Fixpoint set_last (a : list T) (v : T) : list T :=
  match a with
  | [] => []
  | [_] => [v]
  | x :: xs => x :: set_last xs v
  end.

(* [np.linspace(start, stop, num)] with the default [endpoint=True]:
   [arange(num) * step + start] with [step = (stop - start) / (num - 1)],
   the last sample set to [stop]; for [num <= 1] there is no step and the
   samples are [arange(num) * (stop - start) + start]. *)
Definition linspace (start stop : T) (num : nat) : list T :=
  let delta := fsub stop start in
  let ar := map (fun i => of_Z (Z.of_nat i)) (seq 0 num) in
  if Nat.ltb 1 num then
    let step := fdiv delta (of_Z (Z.of_nat (num - 1))) in
    set_last (map (fun i => fadd (fmul i step) start) ar) stop
  else
    map (fun i => fadd (fmul i delta) start) ar.
End Arrays.
End np.

(** ** The equations of motion *)

Section Equations.
Context {T : Type} `{Scalar T}.

Definition compute_acceleration (ri rj : list T) (mj : T) : result (list T) :=
  d <- np.subtract rj ri ;;
  let num := np.scalar_mul mj d in
  d' <- np.subtract rj ri ;;
  Ok (np.div_scalar num (fpow (np.linalg_norm d') 3)).

Definition three_body_equations (t : T) (y : list T) (masses : list T)
  : result (list T) :=
  let r1 := py.slice y 0 2 in
  let r2 := py.slice y 2 4 in
  let r3 := py.slice y 4 6 in
  let v1 := py.slice y 6 8 in
  let v2 := py.slice y 8 10 in
  let v3 := py.slice y 10 12 in
  m1 <- py.getitem masses 1 ;;
  a12 <- compute_acceleration r1 r2 m1 ;;
  m2 <- py.getitem masses 2 ;;
  a13 <- compute_acceleration r1 r3 m2 ;;
  a1 <- np.add a12 a13 ;;
  m0 <- py.getitem masses 0 ;;
  a21 <- compute_acceleration r2 r1 m0 ;;
  m2' <- py.getitem masses 2 ;;
  a23 <- compute_acceleration r2 r3 m2' ;;
  a2 <- np.add a21 a23 ;;
  m0' <- py.getitem masses 0 ;;
  a31 <- compute_acceleration r3 r1 m0' ;;
  m1' <- py.getitem masses 1 ;;
  a32 <- compute_acceleration r3 r2 m1' ;;
  a3 <- np.add a31 a32 ;;
  Ok (np.concatenate [v1; v2; v3; a1; a2; a3]).
End Equations.

(** ** The integration call

    [solve_ivp] is scipy's; the program only calls it.  It is a parameter
    here: a function from the right-hand side, the time span, the initial
    state and the evaluation times to the solver's result object, or to the
    exception it raises. *)

Module OdeResult.
Record bunch (T : Type) : Type := {
  t : list T;
  y : list (list T);
  nfev : nat;
  status : Z;
  message : String.string;
  success : bool
}.
End OdeResult.

Definition rhs (T : Type) : Type := T -> list T -> result (list T).

Definition ivp_solver (T : Type) : Type :=
  rhs T -> T * T -> list T -> list T -> result (OdeResult.bunch T).

Section Simulation.
Context {T : Type} `{Scalar T}.
Variable solve_ivp : ivp_solver T.

Definition run_simulation (masses initial_conditions : list T)
    (t_span : T * T) (t_eval : list T) : result (list T * list (list T)) :=
  res <- solve_ivp (fun t y => three_body_equations t y masses)
           t_span initial_conditions t_eval ;;
  Ok (OdeResult.t res, OdeResult.y res).
End Simulation.

(** ** Playback *)

Module Line2D.
Record artist (T : Type) : Type := {
  fmt : String.string;
  color : String.string;
  xdata : list T;
  ydata : list T;
  markersize : option T
}.

Definition set_data {T} (l : artist T) (xs ys : list T) : artist T :=
  {| fmt := fmt l; color := color l; xdata := xs; ydata := ys;
     markersize := markersize l |}.

Definition set_markersize {T} (l : artist T) (sz : T) : artist T :=
  {| fmt := fmt l; color := color l; xdata := xdata l; ydata := ydata l;
     markersize := Some sz |}.

(* [ax.plot([], [], fmt, color=color)[0]] *)
Definition plot_empty {T} (f c : String.string) : artist T :=
  {| fmt := f; color := c; xdata := []; ydata := []; markersize := None |}.
End Line2D.

Section Playback.
Context {T : Type}.

(* [y[i, j]] and [y[i, :stop]] on the two-dimensional [y]. *)
Definition getitem2 (y : list (list T)) (i : nat) (j : Z) : result T :=
  row <- py.getitem y i ;;
  k <- py.index (length row) j ;;
  py.getitem row k.

Definition getslice2 (y : list (list T)) (i : nat) (stop : Z) : result (list T) :=
  row <- py.getitem y i ;;
  Ok (py.slice_to row stop).

Variable t : list T.
Variable y : list (list T).
Variable sizes : list T.

(* The body of [for i, line in enumerate(lines)], from position [i] on;
   [trails] is the list the closure shares with [start_simulation]. *)
Fixpoint update_loop (idx : Z) (i : nat) (lines trails : list (Line2D.artist T))
  : result (list (Line2D.artist T) * list (Line2D.artist T)) :=
  match lines with
  | [] => Ok ([], trails)
  | line :: rest =>
      px <- getitem2 y (2 * i) idx ;;
      py_ <- getitem2 y (2 * i + 1) idx ;;
      let line1 := Line2D.set_data line [px] [py_] in
      sz <- py.getitem sizes i ;;
      let line2 := Line2D.set_markersize line1 sz in
      trail <- py.getitem trails i ;;
      tx <- getslice2 y (2 * i) (idx + 1) ;;
      ty <- getslice2 y (2 * i + 1) (idx + 1) ;;
      let trails1 := py.setitem trails i (Line2D.set_data trail tx ty) in
      done <- update_loop idx (S i) rest trails1 ;;
      Ok (line2 :: fst done, snd done)
  end.

(* [update(frame)]: the artists after the call, [lines] then [trails],
   which is also the list the call returns ([lines + trails]). *)
Definition update (lines trails : list (Line2D.artist T)) (frame : Z)
  : result (list (Line2D.artist T) * list (Line2D.artist T)) :=
  idx <- py.mod_ frame (Z.of_nat (length t)) ;;
  update_loop idx 0 lines trails.
End Playback.

(** ** Starting a simulation *)

Module gui.
Record vars (T : Type) : Type := {
  mass1_var : T; mass2_var : T; mass3_var : T;
  x1_var : T; y1_var : T; x2_var : T; y2_var : T; x3_var : T; y3_var : T;
  vx1_var : T; vy1_var : T; vx2_var : T; vy2_var : T; vx3_var : T; vy3_var : T;
  color1_var : String.string; color2_var : String.string; color3_var : String.string
}.
End gui.

Module playback.
Record env (T : Type) : Type := {
  t : list T;
  y : list (list T);
  sizes : list T;
  lines : list (Line2D.artist T);
  trails : list (Line2D.artist T)
}.
End playback.

(* The format strings and the initial colours of the three bodies. *)
Module fmt.
Import String.
Definition marker : string := "o".
Definition solid : string := "-".
Definition red : string := "red".
Definition green : string := "green".
Definition blue : string := "blue".
Definition equal : string := "equal".
Definition auto : string := "auto".
End fmt.

Section Start.
Context {T : Type} `{Scalar T}.
Variable solve_ivp : ivp_solver T.

Definition t_span : T * T := (of_Z 0, of_Z 100).
Definition t_eval : list T := np.linspace (of_Z 0) (of_Z 100) 10000.

Definition start_simulation (g : gui.vars T) : result (playback.env T) :=
  let masses := [gui.mass1_var g; gui.mass2_var g; gui.mass3_var g] in
  let initial_conditions :=
    [gui.x1_var g; gui.y1_var g; gui.x2_var g; gui.y2_var g;
     gui.x3_var g; gui.y3_var g;
     gui.vx1_var g; gui.vy1_var g; gui.vx2_var g; gui.vy2_var g;
     gui.vx3_var g; gui.vy3_var g] in
  ty <- run_simulation solve_ivp masses initial_conditions t_span t_eval ;;
  let sizes := map (fun mass => fmul mass (of_Z 10)) masses in
  let colors := [gui.color1_var g; gui.color2_var g; gui.color3_var g] in
  let lines := map (Line2D.plot_empty fmt.marker) colors in
  let trails := map (Line2D.plot_empty fmt.solid) colors in
  Ok {| playback.t := fst ty; playback.y := snd ty; playback.sizes := sizes;
        playback.lines := lines; playback.trails := trails |}.
End Start.

(** ** The default configuration of the sliders (lines 114 to 139) *)

Section Defaults.
Context {T : Type} `{Scalar T}.

Definition default_vars : gui.vars T := {|
  gui.mass1_var := of_Z 1; gui.mass2_var := of_Z 1; gui.mass3_var := of_Z 1;
  gui.x1_var := of_Z (-1); gui.y1_var := of_Z 0;
  gui.x2_var := of_Z 1; gui.y2_var := of_Z 0;
  gui.x3_var := of_Z 0; gui.y3_var := of_Z 1;
  gui.vx1_var := of_Z 0; gui.vy1_var := of_Z 1;
  gui.vx2_var := of_Z 0; gui.vy2_var := of_Z (-1);
  gui.vx3_var := of_Z 1; gui.vy3_var := of_Z 0;
  gui.color1_var := fmt.red; gui.color2_var := fmt.green;
  gui.color3_var := fmt.blue
|}.

Definition default_masses : list T := [of_Z 1; of_Z 1; of_Z 1].

Definition default_state : list T :=
  [of_Z (-1); of_Z 0; of_Z 1; of_Z 0; of_Z 0; of_Z 1;
   of_Z 0; of_Z 1; of_Z 0; of_Z (-1); of_Z 1; of_Z 0].
End Defaults.

(** ** Derived forms, the specification's formulas and sample inputs *)

Section EvaluatorForms.
Context {T : Type} `{Scalar T}.

(* What [compute_acceleration] returns on two planar positions. *)
Definition pull (mj xi yi xj yj : T) : list T :=
  let dx := fsub xj xi in
  let dy := fsub yj yi in
  let n3 := fpow (fsqrt (fadd (fmul dx dx) (fmul dy dy))) 3 in
  [fdiv (fmul mj dx) n3; fdiv (fmul mj dy) n3].

(* The right-hand sides of lines 16 to 18: the pull of body [j] on the
   body at [ri] plus the pull of body [k]. *)
Definition acceleration_on (masses ri rj rk : list T) (j k : nat)
  : result (list T) :=
  mj <- py.getitem masses j ;;
  aj <- compute_acceleration ri rj mj ;;
  mk <- py.getitem masses k ;;
  ak <- compute_acceleration ri rk mk ;;
  np.add aj ak.
End EvaluatorForms.

Section SpecMechanics.
Local Open Scope R_scope.

(* Position of body [i] and mass of body [j], by fixed offset. *)
Definition position (y : list R) (i : nat) : R * R :=
  (nth (2 * i) y 0, nth (2 * i + 1) y 0).

Definition mass (masses : list R) (j : nat) : R := nth j masses 0.

Definition euclid (d : R * R) : R := sqrt (fst d ^ 2 + snd d ^ 2).

Definition separation (y : list R) (i j : nat) : R * R :=
  (fst (position y j) - fst (position y i),
   snd (position y j) - snd (position y i)).

(* The law as the specification writes it:
   [a_i_from_j = masses[j] * (r_j - r_i) / |r_j - r_i|^3]. *)
Definition spec_a_from (masses y : list R) (i j : nat) : R * R :=
  let d := separation y i j in
  (mass masses j * fst d / euclid d ^ 3,
   mass masses j * snd d / euclid d ^ 3).
End SpecMechanics.

(* A solver that takes no step: it evaluates the right-hand side once, at
   the start of the span, and reports the initial state alone.  It serves
   to run [run_simulation] on concrete inputs; no statement below depends
   on how a solver integrates. *)
Definition no_step_solver {T : Type} : ivp_solver T :=
  fun f t_span y0 t_eval =>
    _ <- f (fst t_span) y0 ;;
    Ok {| OdeResult.t := [fst t_span];
          OdeResult.y := map (fun c => [c]) y0;
          OdeResult.nfev := 1;
          OdeResult.status := 0;
          OdeResult.message := String.EmptyString;
          OdeResult.success := true |}.

(* Bodies 1 and 2 at the origin, body 3 at (1, 0), all at rest. *)
Definition collided_state {T : Type} `{Scalar T} : list T :=
  [of_Z 0; of_Z 0; of_Z 0; of_Z 0; of_Z 1; of_Z 0;
   of_Z 0; of_Z 0; of_Z 0; of_Z 0; of_Z 0; of_Z 0].

(* The configurations the specification calls valid: positive masses, a
   non-empty strictly increasing sequence of evaluation times, and
   [t_start < t_end]. *)
Fixpoint strictly_increasing (l : list R) : Prop :=
  match l with
  | a :: (b :: _) as rest => (a < b)%R /\ strictly_increasing rest
  | _ => True
  end.

Definition valid_configuration (masses : list R) (t_span : R * R)
    (t_eval : list R) : Prop :=
  Forall (fun m => (0 < m)%R) masses /\
  t_eval <> [] /\ strictly_increasing t_eval /\
  (fst t_span < snd t_span)%R.

(* One massless body and one of negative mass. *)
Definition bad_masses : list R := [0%R; (-1)%R; 1%R].

(* The shape [start_simulation] hands to [update]: at least one reported
   time, a rectangular [y] with one column per time and two rows per line,
   and a size and a trail for every line. *)
Definition playable {T : Type} (t : list T) (y : list (list T)) (sizes : list T)
    (lines trails : list (Line2D.artist T)) : Prop :=
  t <> [] /\
  Forall (fun row => length row = length t) y /\
  2 * length lines <= length y /\
  length lines <= length sizes /\
  length lines <= length trails.

(* A recorded run of two samples: row [k] of [y] holds [k] and [k + 100]. *)
Definition two_sample_t : list PrimFloat.float := [float_of_Z 0; float_of_Z 1].

Definition two_sample_y : list (list PrimFloat.float) :=
  map (fun k => [float_of_Z (Z.of_nat k); float_of_Z (Z.of_nat k + 100)])
      (seq 0 12).

Definition three_sizes : list PrimFloat.float :=
  map (fun mass => fmul mass (of_Z 10)) default_masses.

Definition three_lines : list (Line2D.artist PrimFloat.float) :=
  map (Line2D.plot_empty fmt.marker) [fmt.red; fmt.green; fmt.blue].

Definition three_trails : list (Line2D.artist PrimFloat.float) :=
  map (Line2D.plot_empty fmt.solid) [fmt.red; fmt.green; fmt.blue].

(** ** Further sample inputs *)

(* The state shifted rigidly by [(cx, cy)]: positions move, velocities do
   not. *)
Definition translate (cx cy : R) (y : list R) : list R :=
  np.zip_with Rplus (firstn 6 y) [cx; cy; cx; cy; cx; cy] ++ skipn 6 y.

(* What [update] leaves alone in an artist: the format and the colour of a
   marker; the format, the colour and the marker size of a trail. *)
Definition marker_style {T : Type} (l : Line2D.artist T)
  : String.string * String.string :=
  (Line2D.fmt l, Line2D.color l).

Definition trail_style {T : Type} (l : Line2D.artist T)
  : String.string * String.string * option T :=
  (Line2D.fmt l, Line2D.color l, Line2D.markersize l).

(** ** The window: the state and the callbacks of [create_gui]

    The closure variables of [create_gui] that its callbacks read or write
    are the fields of [app.state].  Axes objects live in [heap] and are
    named by their position there; [figure] lists the axes the figure
    holds, which are the ones the canvas draws.  Widget layout and the
    value labels of the sliders are left out. *)

Class Negate (T : Type) : Type := {
  fneg : T -> T
}.

#[export] Instance R_Negate : Negate R := {| fneg := Ropp |}.

#[export] Instance float_Negate : Negate PrimFloat.float :=
  {| fneg := PrimFloat.opp |}.

Module tk.
Inductive state : Type :=
| NORMAL
| DISABLED.
End tk.

Module Axes.
Record axes (T : Type) : Type := {
  xlim : T * T;
  ylim : T * T;
  aspect : String.string;
  artists : list (Line2D.artist T)
}.
End Axes.

Module animation.
(* A [FuncAnimation] over [update]: the timer interval, the data the
   closure [update] captured, and whether its event source is running. *)
Record anim (T : Type) : Type := {
  interval : Z;
  env : playback.env T;
  running : bool
}.
End animation.

Module app.
Record state (T : Type) : Type := {
  vars : gui.vars T;
  speed_var : Z;
  width_var : T;
  height_var : T;
  start_button : tk.state;
  figure : list nat;
  heap : list (Axes.axes T);
  ax : nat;
  ani : option (animation.anim T)
}.
End app.

Section Window.
Context {T : Type} `{Scalar T} `{Negate T}.
Variable solve_ivp : ivp_solver T.

(* [fig.add_subplot(111)]: a fresh axes with the default view. *)
Definition add_subplot : Axes.axes T :=
  {| Axes.xlim := (of_Z 0, of_Z 1); Axes.ylim := (of_Z 0, of_Z 1);
     Axes.aspect := fmt.auto; Axes.artists := [] |}.

(* [ax.clear()]: the artists go and the view is reset; the aspect stays. *)
Definition clear (a : Axes.axes T) : Axes.axes T :=
  {| Axes.xlim := (of_Z 0, of_Z 1); Axes.ylim := (of_Z 0, of_Z 1);
     Axes.aspect := Axes.aspect a; Axes.artists := [] |}.

Definition set_xlim (a : Axes.axes T) (lo hi : T) : Axes.axes T :=
  {| Axes.xlim := (lo, hi); Axes.ylim := Axes.ylim a;
     Axes.aspect := Axes.aspect a; Axes.artists := Axes.artists a |}.

Definition set_ylim (a : Axes.axes T) (lo hi : T) : Axes.axes T :=
  {| Axes.xlim := Axes.xlim a; Axes.ylim := (lo, hi);
     Axes.aspect := Axes.aspect a; Axes.artists := Axes.artists a |}.

Definition set_aspect (a : Axes.axes T) (s : String.string) : Axes.axes T :=
  {| Axes.xlim := Axes.xlim a; Axes.ylim := Axes.ylim a;
     Axes.aspect := s; Axes.artists := Axes.artists a |}.

(* [ax.plot(x, y, 'o', markersize=size, color=color)] *)
Definition plot_marker (a : Axes.axes T) (x y size : T) (color : String.string)
  : Axes.axes T :=
  {| Axes.xlim := Axes.xlim a; Axes.ylim := Axes.ylim a;
     Axes.aspect := Axes.aspect a;
     Axes.artists :=
       Axes.artists a ++
       [{| Line2D.fmt := fmt.marker; Line2D.color := color;
           Line2D.xdata := [x]; Line2D.ydata := [y];
           Line2D.markersize := Some size |}] |}.

(* The three lines every view set-up shares:
   [set_xlim(-width/2, width/2)], [set_ylim(-height/2, height/2)],
   [set_aspect('equal')]. *)
Definition set_view (w h : T) (a : Axes.axes T) : Axes.axes T :=
  let a := set_xlim a (fdiv (fneg w) (of_Z 2)) (fdiv w (of_Z 2)) in
  let a := set_ylim a (fdiv (fneg h) (of_Z 2)) (fdiv h (of_Z 2)) in
  set_aspect a fmt.equal.

(* The body of [update_initial_positions], on the axes object [ax] names. *)
Definition draw_initial_positions (g : gui.vars T) (w h : T) (a : Axes.axes T)
  : Axes.axes T :=
  let a := clear a in
  let a := set_view w h a in
  let initial_positions :=
    [(gui.x1_var g, gui.y1_var g); (gui.x2_var g, gui.y2_var g);
     (gui.x3_var g, gui.y3_var g)] in
  let sizes :=
    [fmul (gui.mass1_var g) (of_Z 10); fmul (gui.mass2_var g) (of_Z 10);
     fmul (gui.mass3_var g) (of_Z 10)] in
  let colors := [gui.color1_var g; gui.color2_var g; gui.color3_var g] in
  fold_left
    (fun a psc =>
       plot_marker a (fst (fst (fst psc))) (snd (fst (fst psc)))
         (snd (fst psc)) (snd psc))
    (combine (combine initial_positions sizes) colors) a.

Definition with_heap (st : app.state T) (hp : list (Axes.axes T)) : app.state T :=
  {| app.vars := app.vars st; app.speed_var := app.speed_var st;
     app.width_var := app.width_var st; app.height_var := app.height_var st;
     app.start_button := app.start_button st; app.figure := app.figure st;
     app.heap := hp; app.ax := app.ax st; app.ani := app.ani st |}.

Definition with_figure (st : app.state T) (fg : list nat) : app.state T :=
  {| app.vars := app.vars st; app.speed_var := app.speed_var st;
     app.width_var := app.width_var st; app.height_var := app.height_var st;
     app.start_button := app.start_button st; app.figure := fg;
     app.heap := app.heap st; app.ax := app.ax st; app.ani := app.ani st |}.

Definition with_button (st : app.state T) (b : tk.state) : app.state T :=
  {| app.vars := app.vars st; app.speed_var := app.speed_var st;
     app.width_var := app.width_var st; app.height_var := app.height_var st;
     app.start_button := b; app.figure := app.figure st;
     app.heap := app.heap st; app.ax := app.ax st; app.ani := app.ani st |}.

Definition with_ani (st : app.state T) (a : option (animation.anim T))
  : app.state T :=
  {| app.vars := app.vars st; app.speed_var := app.speed_var st;
     app.width_var := app.width_var st; app.height_var := app.height_var st;
     app.start_button := app.start_button st; app.figure := app.figure st;
     app.heap := app.heap st; app.ax := app.ax st; app.ani := a |}.

Definition with_vars (st : app.state T) (g : gui.vars T) (speed : Z) (w h : T)
  : app.state T :=
  {| app.vars := g; app.speed_var := speed;
     app.width_var := w; app.height_var := h;
     app.start_button := app.start_button st; app.figure := app.figure st;
     app.heap := app.heap st; app.ax := app.ax st; app.ani := app.ani st |}.

Definition update_initial_positions (st : app.state T) : app.state T :=
  match nth_error (app.heap st) (app.ax st) with
  | Some a =>
      with_heap st
        (py.setitem (app.heap st) (app.ax st)
           (draw_initial_positions (app.vars st) (app.width_var st)
              (app.height_var st) a))
  | None => st
  end.

Definition update_simulation (st : app.state T) : app.state T :=
  update_initial_positions st.

(* [fig.clear()]: every axes of the figure is cleared and taken out of
   the figure. *)
Definition clear_axes_at (hp : list (Axes.axes T)) (id : nat) : list (Axes.axes T) :=
  match nth_error hp id with
  | Some a => py.setitem hp id (clear a)
  | None => hp
  end.

Definition fig_clear (st : app.state T) : app.state T :=
  with_figure (with_heap st (fold_left clear_axes_at (app.figure st) (app.heap st)))
    [].

(* [1000 // speed_var.get()] *)
Definition animation_interval (speed : Z) : result Z := py.floordiv 1000 speed.

(* [start_simulation] as the command of the Start button: the state it
   leaves, and the exception the callback ends with, if any (the window
   then goes on running with the state reached so far).  The axes it
   creates is bound to a variable local to [start_simulation]; the [ax]
   of [create_gui] is not rebound. *)
Definition start_clicked (st : app.state T) : app.state T * result unit :=
  let st := with_button st tk.DISABLED in
  match start_simulation solve_ivp (app.vars st) with
  | Raise e => (st, Raise e)
  | Ok env =>
      let st := fig_clear st in
      let new_ax :=
        set_view (app.width_var st) (app.height_var st) add_subplot in
      let new_ax :=
        {| Axes.xlim := Axes.xlim new_ax; Axes.ylim := Axes.ylim new_ax;
           Axes.aspect := Axes.aspect new_ax;
           Axes.artists := playback.lines env ++ playback.trails env |} in
      let st :=
        with_figure (with_heap st (app.heap st ++ [new_ax]))
          (app.figure st ++ [length (app.heap st)]) in
      match animation_interval (app.speed_var st) with
      | Raise e => (st, Raise e)
      | Ok k =>
          (with_ani st
             (Some {| animation.interval := k; animation.env := env;
                      animation.running := true |}),
           Ok tt)
      end
  end.

Definition set_running (a : animation.anim T) (b : bool) : animation.anim T :=
  {| animation.interval := animation.interval a;
     animation.env := animation.env a; animation.running := b |}.

Definition pause_simulation (st : app.state T) : app.state T :=
  match app.ani st with
  | Some a => with_ani st (Some (set_running a false))
  | None => st
  end.

Definition resume_simulation (st : app.state T) : app.state T :=
  match app.ani st with
  | Some a => with_ani st (Some (set_running a true))
  | None => st
  end.

Definition clear_simulation (st : app.state T) : app.state T :=
  let st := with_ani st None in
  let st := with_button st tk.NORMAL in
  update_initial_positions st.

(* The window as [create_gui] leaves it when the main loop starts. *)
Definition create_gui : app.state T :=
  update_initial_positions
    {| app.vars := default_vars; app.speed_var := 100;
       app.width_var := of_Z 10; app.height_var := of_Z 10;
       app.start_button := tk.NORMAL; app.figure := [0];
       app.heap := [set_view (of_Z 10) (of_Z 10) add_subplot];
       app.ax := 0; app.ani := None |}.

(* What the user can do.  A slider or colour box writes its variable and
   calls [update_initial_positions]; [VariablesChanged] carries the values
   of all variables after the write.  A disabled button does not fire. *)
Inductive event : Type :=
| StartClicked
| PauseClicked
| ResumeClicked
| ClearClicked
| VariablesChanged (g : gui.vars T) (speed : Z) (w h : T).

Definition enabled (st : app.state T) (e : event) : Prop :=
  match e with
  | StartClicked => app.start_button st = tk.NORMAL
  | _ => True
  end.

Definition handle (st : app.state T) (e : event) : app.state T :=
  match e with
  | StartClicked => fst (start_clicked st)
  | PauseClicked => pause_simulation st
  | ResumeClicked => resume_simulation st
  | ClearClicked => clear_simulation st
  | VariablesChanged g speed w h =>
      update_initial_positions (with_vars st g speed w h)
  end.

Inductive reachable : app.state T -> Prop :=
| reach_init : reachable create_gui
| reach_step (st : app.state T) (e : event) :
    reachable st -> enabled st e -> reachable (handle st e).

(* What the canvas draws: the axes the figure holds. *)
Definition visible (st : app.state T) : list (option (Axes.axes T)) :=
  map (nth_error (app.heap st)) (app.figure st).
End Window.

(* A solver that rejects every problem. *)
Definition rejecting_solver {T : Type} : ivp_solver T :=
  fun _ _ _ _ => Raise ValueError.

(* What every state of the window satisfies (see [reachable_window_invariant]). *)
Definition window_invariant {T : Type} (st : app.state T) : Prop :=
  (app.start_button st = tk.NORMAL -> app.ani st = None) /\
  (exists a, app.figure st = [a] /\ a < length (app.heap st)) /\
  app.ax st < length (app.heap st) /\
  (app.ani st <> None -> ~ In (app.ax st) (app.figure st)).

(* The same system with bodies 1 and 2, or 2 and 3, exchanged: in a state
   or a derivative, and in the mass vector. *)
Definition exchange12 {T : Type} (y : list T) : list T :=
  py.slice y 2 4 ++ py.slice y 0 2 ++ py.slice y 4 6
  ++ py.slice y 8 10 ++ py.slice y 6 8 ++ py.slice y 10 12.

Definition exchange23 {T : Type} (y : list T) : list T :=
  py.slice y 0 2 ++ py.slice y 4 6 ++ py.slice y 2 4
  ++ py.slice y 6 8 ++ py.slice y 10 12 ++ py.slice y 8 10.

Definition exchange12_masses {T : Type} (masses : list T) : list T :=
  py.slice masses 1 2 ++ py.slice masses 0 1 ++ py.slice masses 2 3.

Definition exchange23_masses {T : Type} (masses : list T) : list T :=
  py.slice masses 0 1 ++ py.slice masses 2 3 ++ py.slice masses 1 2.

(** * Properties *)

Unset Implicit Arguments.

(** ** The derivative evaluator on a well-formed input *)

Section EvaluatorFacts.
Context {T : Type} `{Scalar T}.

Lemma compute_acceleration_planar (mj xi yi xj yj : T) :
  compute_acceleration [xi; yi] [xj; yj] mj = Ok (pull mj xi yi xj yj).
Proof. reflexivity. Qed.

Lemma length12_inv (y : list T) :
  length y = 12 ->
  exists x1 y1 x2 y2 x3 y3 vx1 vy1 vx2 vy2 vx3 vy3,
    y = [x1; y1; x2; y2; x3; y3; vx1; vy1; vx2; vy2; vx3; vy3].
Proof.
  intros L.
  do 12 (destruct y as [|? y]; [discriminate L|]).
  destruct y; [|discriminate L].
  repeat eexists.
Qed.

Lemma length3_inv (masses : list T) :
  3 <= length masses ->
  exists m0 m1 m2 more, masses = m0 :: m1 :: m2 :: more.
Proof.
  intros L.
  do 3 (destruct masses as [|? masses]; [simpl in L; lia|]).
  repeat eexists.
Qed.

Lemma three_body_equations_eval
    (t x1 y1 x2 y2 x3 y3 vx1 vy1 vx2 vy2 vx3 vy3 m0 m1 m2 : T) (more : list T) :
  three_body_equations t
    [x1; y1; x2; y2; x3; y3; vx1; vy1; vx2; vy2; vx3; vy3]
    (m0 :: m1 :: m2 :: more)
  = Ok ([vx1; vy1; vx2; vy2; vx3; vy3]
        ++ np.zip_with fadd (pull m1 x1 y1 x2 y2) (pull m2 x1 y1 x3 y3)
        ++ np.zip_with fadd (pull m0 x2 y2 x1 y1) (pull m2 x2 y2 x3 y3)
        ++ np.zip_with fadd (pull m0 x3 y3 x1 y1) (pull m1 x3 y3 x2 y2)).
Proof. reflexivity. Qed.

(** C2.  On a 12-component state [r1, r2, r3, v1, v2, v3] and a mass
    vector with its three entries, the evaluator returns the 12 components
    [v1, v2, v3, a1, a2, a3]: the first six are the input velocities
    [y[6:12]] unchanged, the last six are the three accelerations, each
    the two-component sum the code computes for that body. *)
Theorem three_body_equations_layout (t : T) (y masses : list T) :
  length y = 12 -> 3 <= length masses ->
  exists out a1 a2 a3,
    three_body_equations t y masses = Ok out /\
    acceleration_on masses (py.slice y 0 2) (py.slice y 2 4) (py.slice y 4 6) 1 2
      = Ok a1 /\
    acceleration_on masses (py.slice y 2 4) (py.slice y 0 2) (py.slice y 4 6) 0 2
      = Ok a2 /\
    acceleration_on masses (py.slice y 4 6) (py.slice y 0 2) (py.slice y 2 4) 0 1
      = Ok a3 /\
    out = py.slice y 6 8 ++ py.slice y 8 10 ++ py.slice y 10 12 ++ a1 ++ a2 ++ a3 /\
    length out = 12 /\
    py.slice out 0 6 = py.slice y 6 12 /\
    py.slice out 6 12 = a1 ++ a2 ++ a3 /\
    length a1 = 2 /\ length a2 = 2 /\ length a3 = 2.
Proof.
  intros Ly Lm.
  destruct (length12_inv y Ly)
    as (x1 & y1 & x2 & y2 & x3 & y3 & vx1 & vy1 & vx2 & vy2 & vx3 & vy3 & ->).
  destruct (length3_inv masses Lm) as (m0 & m1 & m2 & more & ->).
  rewrite three_body_equations_eval.
  eexists. eexists. eexists. eexists.
  split; [reflexivity|].
  repeat split; reflexivity.
Qed.

(* The evaluator never raises on a well-formed input, whatever the
   positions are. *)
Lemma three_body_equations_total (t : T) (y masses : list T) :
  length y = 12 -> 3 <= length masses ->
  exists out, three_body_equations t y masses = Ok out /\ length out = 12.
Proof.
  intros Ly Lm.
  destruct (length12_inv y Ly)
    as (x1 & y1 & x2 & y2 & x3 & y3 & vx1 & vy1 & vx2 & vy2 & vx3 & vy3 & ->).
  destruct (length3_inv masses Lm) as (m0 & m1 & m2 & more & ->).
  rewrite three_body_equations_eval.
  eexists; split; reflexivity.
Qed.
End EvaluatorFacts.

Lemma three_body_equations_layout_witness :
  length (@default_state R _) = 12 /\ 3 <= length (@default_masses R _) /\
  exists out a1 a2 a3,
    three_body_equations 0%R default_state default_masses = Ok out /\
    acceleration_on default_masses (py.slice default_state 0 2)
      (py.slice default_state 2 4) (py.slice default_state 4 6) 1 2 = Ok a1 /\
    acceleration_on default_masses (py.slice default_state 2 4)
      (py.slice default_state 0 2) (py.slice default_state 4 6) 0 2 = Ok a2 /\
    acceleration_on default_masses (py.slice default_state 4 6)
      (py.slice default_state 0 2) (py.slice default_state 2 4) 0 1 = Ok a3 /\
    out = py.slice default_state 6 8 ++ py.slice default_state 8 10
          ++ py.slice default_state 10 12 ++ a1 ++ a2 ++ a3 /\
    length out = 12 /\
    py.slice out 0 6 = py.slice default_state 6 12 /\
    py.slice out 6 12 = a1 ++ a2 ++ a3 /\
    length a1 = 2 /\ length a2 = 2 /\ length a3 = 2.
Proof.
  split; [reflexivity|].
  split; [simpl; lia|].
  apply (three_body_equations_layout 0%R default_state default_masses).
  - reflexivity.
  - simpl; lia.
Defined.

(** ** Newtonian gravitation, over the reals *)

Section RealMechanics.
Local Open Scope R_scope.

Lemma pull_real (mj xi yi xj yj : R) :
  pull mj xi yi xj yj =
  [mj * (xj - xi) / sqrt ((xj - xi) ^ 2 + (yj - yi) ^ 2) ^ 3;
   mj * (yj - yi) / sqrt ((xj - xi) ^ 2 + (yj - yi) ^ 2) ^ 3].
Proof.
  unfold pull; cbn [fsub fmul fadd fdiv fsqrt fpow R_Scalar].
  replace ((xj - xi) * (xj - xi) + (yj - yi) * (yj - yi))
    with ((xj - xi) ^ 2 + (yj - yi) ^ 2) by ring.
  reflexivity.
Qed.

Lemma euclid_swap (a b c d : R) :
  sqrt ((a - b) ^ 2 + (c - d) ^ 2) = sqrt ((b - a) ^ 2 + (d - c) ^ 2).
Proof. f_equal; ring. Qed.

Lemma euclid_pos (d : R * R) : d <> (0, 0) -> 0 < euclid d.
Proof.
  destruct d as [a b]; intros Hd; unfold euclid; cbn [fst snd].
  apply sqrt_lt_R0.
  assert (Ha : 0 <= a ^ 2) by apply pow2_ge_0.
  assert (Hb : 0 <= b ^ 2) by apply pow2_ge_0.
  destruct (Req_dec a 0) as [->|Na].
  - destruct (Req_dec b 0) as [->|Nb]; [now elim Hd|].
    assert (0 < b * b) by (destruct (Rdichotomy _ _ Nb); nra). nra.
  - assert (0 < a * a) by (destruct (Rdichotomy _ _ Na); nra). nra.
Qed.

Lemma separation_nonzero (y : list R) (i j : nat) :
  position y i <> position y j -> separation y i j <> (0, 0).
Proof.
  unfold separation; destruct (position y i) as [a b], (position y j) as [c d].
  cbn [fst snd]; intros Hne E; apply Hne.
  injection E as E1 E2; f_equal; lra.
Qed.

Lemma state_masses_inv (y masses : list R) :
  length y = 12%nat -> length masses = 3%nat ->
  exists x1 y1 x2 y2 x3 y3 vx1 vy1 vx2 vy2 vx3 vy3 m0 m1 m2,
    y = [x1; y1; x2; y2; x3; y3; vx1; vy1; vx2; vy2; vx3; vy3] /\
    masses = [m0; m1; m2].
Proof.
  intros Ly Lm.
  destruct (length12_inv y Ly)
    as (x1 & y1 & x2 & y2 & x3 & y3 & vx1 & vy1 & vx2 & vy2 & vx3 & vy3 & ->).
  destruct masses as [|m0 [|m1 [|m2 [|? ?]]]]; try discriminate Lm.
  repeat eexists.
Qed.

Ltac bodies i := destruct i as [|[|[|i]]]; try lia.

(** C1.  In real arithmetic, with G = 1: for every ordered pair of
    distinct bodies (i, j), [compute_acceleration] applied to their
    positions and to [masses[j]] returns
    [masses[j] * (r_j - r_i) / |r_j - r_i|^3], and the acceleration the
    evaluator stores for body i (components 6+2i and 7+2i of its output)
    is the sum of the contributions of the other two bodies. *)
Theorem three_body_equations_newton (t : R) (y masses : list R) :
  length y = 12%nat -> length masses = 3%nat ->
  (forall i j : nat, (i < 3)%nat -> (j < 3)%nat -> i <> j ->
     compute_acceleration (py.slice y (2 * i) (2 * i + 2))
       (py.slice y (2 * j) (2 * j + 2)) (mass masses j)
     = Ok [fst (spec_a_from masses y i j); snd (spec_a_from masses y i j)]) /\
  exists out,
    three_body_equations t y masses = Ok out /\
    forall i j k : nat, (i < 3)%nat -> (j < 3)%nat -> (k < 3)%nat ->
      i <> j -> i <> k -> j <> k ->
      nth (6 + 2 * i) out 0
        = fst (spec_a_from masses y i j) + fst (spec_a_from masses y i k) /\
      nth (6 + 2 * i + 1) out 0
        = snd (spec_a_from masses y i j) + snd (spec_a_from masses y i k).
Proof.
  intros Ly Lm.
  destruct (state_masses_inv y masses Ly Lm)
    as (x1 & y1 & x2 & y2 & x3 & y3 & vx1 & vy1 & vx2 & vy2 & vx3 & vy3
        & m0 & m1 & m2 & -> & ->).
  split.
  - intros i j Hi Hj Hij.
    bodies i; bodies j;
      cbn [py.slice Nat.mul Nat.add Nat.sub skipn firstn];
      rewrite compute_acceleration_planar, pull_real; reflexivity.
  - rewrite three_body_equations_eval, !pull_real.
    eexists; split; [reflexivity|].
    intros i j k Hi Hj Hk Hij Hik Hjk.
    bodies i; bodies j; bodies k;
      unfold spec_a_from, separation, position, mass, euclid;
      cbn [np.zip_with app nth Nat.mul Nat.add fst snd fadd R_Scalar];
      split; first [reflexivity | apply Rplus_comm].
Qed.

(** C10.  In real arithmetic, for every mass vector and every state whose
    three positions are pairwise distinct, every divisor [|r_j - r_i|] is
    positive and the accelerations a1, a2, a3 the evaluator returns satisfy
    [masses[0]*a1 + masses[1]*a2 + masses[2]*a3 = 0], component by
    component. *)
Theorem three_body_equations_momentum (t : R) (y masses : list R) :
  length y = 12%nat -> length masses = 3%nat ->
  position y 0 <> position y 1 ->
  position y 0 <> position y 2 ->
  position y 1 <> position y 2 ->
  (forall i j : nat, (i < 3)%nat -> (j < 3)%nat -> i <> j ->
     0 < euclid (separation y i j)) /\
  exists out,
    three_body_equations t y masses = Ok out /\
    mass masses 0 * nth 6 out 0 + mass masses 1 * nth 8 out 0
      + mass masses 2 * nth 10 out 0 = 0 /\
    mass masses 0 * nth 7 out 0 + mass masses 1 * nth 9 out 0
      + mass masses 2 * nth 11 out 0 = 0.
Proof.
  intros Ly Lm H01 H02 H12.
  split.
  - intros i j Hi Hj Hij.
    apply euclid_pos, separation_nonzero.
    bodies i; bodies j; auto.
  - destruct (state_masses_inv y masses Ly Lm)
      as (x1 & y1 & x2 & y2 & x3 & y3 & vx1 & vy1 & vx2 & vy2 & vx3 & vy3
          & m0 & m1 & m2 & -> & ->).
    rewrite three_body_equations_eval, !pull_real.
    eexists; split; [reflexivity|].
    unfold mass;
      cbn [np.zip_with app nth fadd R_Scalar].
    rewrite (euclid_swap x1 x2 y1 y2), (euclid_swap x1 x3 y1 y3),
      (euclid_swap x2 x3 y2 y3).
    split; unfold Rdiv; ring.
Qed.
End RealMechanics.

Lemma three_body_equations_newton_witness :
  length (@default_state R _) = 12 /\ length (@default_masses R _) = 3 /\
  (forall i j : nat, i < 3 -> j < 3 -> i <> j ->
     compute_acceleration (py.slice default_state (2 * i) (2 * i + 2))
       (py.slice default_state (2 * j) (2 * j + 2)) (mass default_masses j)
     = Ok [fst (spec_a_from default_masses default_state i j);
           snd (spec_a_from default_masses default_state i j)]) /\
  exists out,
    three_body_equations 0%R default_state default_masses = Ok out /\
    forall i j k : nat, i < 3 -> j < 3 -> k < 3 -> i <> j -> i <> k -> j <> k ->
      nth (6 + 2 * i) out 0%R
        = (fst (spec_a_from default_masses default_state i j)
           + fst (spec_a_from default_masses default_state i k))%R /\
      nth (6 + 2 * i + 1) out 0%R
        = (snd (spec_a_from default_masses default_state i j)
           + snd (spec_a_from default_masses default_state i k))%R.
Proof.
  split; [reflexivity|].
  split; [reflexivity|].
  apply (three_body_equations_newton 0%R default_state default_masses);
    reflexivity.
Defined.

Lemma default_positions_distinct :
  position default_state 0 <> position default_state 1 /\
  position default_state 0 <> position default_state 2 /\
  position default_state 1 <> position default_state 2.
Proof.
  unfold position, default_state; cbn [nth Nat.mul Nat.add of_Z R_Scalar].
  repeat split; intros E; injection E; intros; lra.
Qed.

Lemma three_body_equations_momentum_witness :
  length (@default_state R _) = 12 /\ length (@default_masses R _) = 3 /\
  position default_state 0 <> position default_state 1 /\
  position default_state 0 <> position default_state 2 /\
  position default_state 1 <> position default_state 2 /\
  (forall i j : nat, i < 3 -> j < 3 -> i <> j ->
     (0 < euclid (separation default_state i j))%R) /\
  exists out,
    three_body_equations 0%R default_state default_masses = Ok out /\
    (mass default_masses 0 * nth 6 out 0 + mass default_masses 1 * nth 8 out 0
     + mass default_masses 2 * nth 10 out 0 = 0)%R /\
    (mass default_masses 0 * nth 7 out 0 + mass default_masses 1 * nth 9 out 0
     + mass default_masses 2 * nth 11 out 0 = 0)%R.
Proof.
  destruct default_positions_distinct as (H01 & H02 & H12).
  split; [reflexivity|].
  split; [reflexivity|].
  split; [exact H01|].
  split; [exact H02|].
  split; [exact H12|].
  apply (three_body_equations_momentum 0%R default_state default_masses);
    [reflexivity | reflexivity | exact H01 | exact H02 | exact H12].
Defined.

(** ** What the code does at a collision and on a bad configuration *)

(** C3, as stated, fails: with two bodies at the same point (distance 0,
    below every epsilon) the evaluator raises nothing and returns the
    derivative with NaN in the accelerations of both bodies. *)
Lemma collision_returns_nan :
  (d <- np.subtract (py.slice collided_state 2 4) (py.slice collided_state 0 2) ;;
   Ok (np.linalg_norm d)) = Ok (float_of_Z 0) /\
  three_body_equations (float_of_Z 0) collided_state default_masses
  = Ok [float_of_Z 0; float_of_Z 0; float_of_Z 0;
        float_of_Z 0; float_of_Z 0; float_of_Z 0;
        PrimFloat.nan; PrimFloat.nan; PrimFloat.nan; PrimFloat.nan;
        float_of_Z (-2); float_of_Z 0].
Proof. split; vm_compute; reflexivity. Qed.

(** C3, amended.  The evaluator has no distance check: on every
    12-component state and every mass vector it returns 12 components and
    raises nothing, however close the bodies are.  [run_simulation] adds no
    handling: when the solver returns, the caller gets its [t] and [y] and
    nothing else (no status, no flag); when it raises, the exception
    propagates. *)
Theorem collision_not_detected {T : Type} `{Scalar T}
    (solve_ivp : ivp_solver T) (t : T) (y masses ic te : list T) (span : T * T) :
  length y = 12 -> 3 <= length masses ->
  (exists out, three_body_equations t y masses = Ok out /\ length out = 12) /\
  (forall res,
     solve_ivp (fun t y => three_body_equations t y masses) span ic te = Ok res ->
     run_simulation solve_ivp masses ic span te
     = Ok (OdeResult.t res, OdeResult.y res)) /\
  (forall e,
     solve_ivp (fun t y => three_body_equations t y masses) span ic te = Raise e ->
     run_simulation solve_ivp masses ic span te = Raise e).
Proof.
  intros Ly Lm.
  split; [apply three_body_equations_total; assumption|].
  unfold run_simulation.
  split; [intros res E | intros e E]; rewrite E; reflexivity.
Qed.

Lemma collision_not_detected_witness :
  length (@collided_state PrimFloat.float _) = 12 /\
  3 <= length (@default_masses PrimFloat.float _) /\
  (exists out,
     three_body_equations (float_of_Z 0) collided_state default_masses = Ok out /\
     length out = 12) /\
  (forall res,
     no_step_solver
       (fun t y => three_body_equations t y default_masses)
       t_span collided_state t_eval = Ok res ->
     run_simulation no_step_solver default_masses collided_state t_span t_eval
     = Ok (OdeResult.t res, OdeResult.y res)) /\
  (forall e,
     no_step_solver
       (fun t y => three_body_equations t y default_masses)
       t_span collided_state t_eval = Raise e ->
     run_simulation no_step_solver default_masses collided_state t_span t_eval
     = Raise e).
Proof.
  split; [reflexivity|].
  split; [simpl; lia|].
  apply (collision_not_detected no_step_solver (float_of_Z 0)
           collided_state default_masses collided_state t_eval t_span).
  - reflexivity.
  - simpl; lia.
Defined.

(** C4, as stated, fails: a mass vector with a zero and a negative entry
    is not a valid configuration, yet the evaluator computes with it and
    the integration call returns normally. *)
Lemma bad_masses_accepted :
  ~ valid_configuration bad_masses t_span t_eval /\
  (exists out, three_body_equations 0%R default_state bad_masses = Ok out) /\
  (exists ty,
     run_simulation no_step_solver bad_masses default_state t_span t_eval = Ok ty).
Proof.
  split; [|split].
  - intros (Hm & _). inversion Hm as [|m l Hpos _]; subst. lra.
  - unfold default_state, bad_masses.
    rewrite three_body_equations_eval. eexists; reflexivity.
  - unfold run_simulation, no_step_solver, default_state, bad_masses.
    rewrite three_body_equations_eval. eexists; reflexivity.
Qed.

(** C4, amended.  [run_simulation] validates nothing itself: it raises
    exactly when the [solve_ivp] call it makes on the unchanged arguments
    raises, and with the same exception; and the evaluator that call
    integrates accepts every mass vector with three entries, positive or
    not. *)
Theorem run_simulation_no_validation {T : Type} `{Scalar T}
    (solve_ivp : ivp_solver T) (masses ic te : list T) (span : T * T) :
  (forall e,
     run_simulation solve_ivp masses ic span te = Raise e <->
     solve_ivp (fun t y => three_body_equations t y masses) span ic te = Raise e) /\
  (forall ty,
     run_simulation solve_ivp masses ic span te = Ok ty <->
     exists res,
       solve_ivp (fun t y => three_body_equations t y masses) span ic te = Ok res /\
       ty = (OdeResult.t res, OdeResult.y res)) /\
  (forall t y, length y = 12 -> 3 <= length masses ->
     exists out, three_body_equations t y masses = Ok out /\ length out = 12).
Proof.
  unfold run_simulation.
  split; [|split].
  - intros e.
    destruct (solve_ivp _ span ic te) as [res|e']; cbn [bind];
      split; intros E; congruence.
  - intros ty.
    destruct (solve_ivp _ span ic te) as [res|e']; cbn [bind]; split.
    + intros E; injection E as <-; exists res; split; reflexivity.
    + intros (res' & E & ->); injection E as <-; reflexivity.
    + discriminate.
    + intros (res' & E & _); discriminate.
  - intros t y Ly Lm; apply three_body_equations_total; assumption.
Qed.

(** ** Playback *)

Section SequenceFacts.
Context {A : Type}.

Lemma setitem_length (l : list A) (i : nat) (a : A) :
  length (py.setitem l i a) = length l.
Proof.
  revert i; induction l as [|x xs IH]; intros [|i]; cbn [py.setitem length];
    try reflexivity.
  now rewrite IH.
Qed.

Lemma setitem_same (l : list A) (i : nat) (a : A) :
  i < length l -> nth_error (py.setitem l i a) i = Some a.
Proof.
  revert i; induction l as [|x xs IH]; intros [|i] L; cbn [length] in L;
    try lia; cbn [py.setitem nth_error]; [reflexivity|].
  apply IH; lia.
Qed.

Lemma setitem_other (l : list A) (i j : nat) (a : A) :
  i <> j -> nth_error (py.setitem l i a) j = nth_error l j.
Proof.
  revert i j; induction l as [|x xs IH]; intros [|i] [|j] N;
    cbn [py.setitem nth_error]; try reflexivity; try lia.
  apply IH; lia.
Qed.

Lemma getitem_ok (l : list A) (i : nat) (a : A) :
  py.getitem l i = Ok a <-> nth_error l i = Some a.
Proof.
  unfold py.getitem; destruct (nth_error l i); split; congruence.
Qed.

Lemma getitem_total (l : list A) (i : nat) :
  i < length l -> exists a, py.getitem l i = Ok a.
Proof.
  intros L; unfold py.getitem.
  destruct (nth_error l i) eqn:E; [eauto|].
  apply nth_error_None in E; lia.
Qed.

Lemma index_in_range (n : nat) (k : Z) :
  (0 <= k < Z.of_nat n)%Z -> py.index n k = Ok (Z.to_nat k).
Proof.
  intros [L U]; unfold py.index.
  destruct (Z.leb_spec 0 k); [|lia].
  destruct (Z.ltb_spec k (Z.of_nat n)); [reflexivity|lia].
Qed.

Lemma slice_to_nonneg (l : list A) (stop : Z) :
  (0 <= stop)%Z -> py.slice_to l stop = firstn (Z.to_nat stop) l.
Proof.
  intros L; unfold py.slice_to.
  destruct (Z.ltb_spec stop 0); [lia|reflexivity].
Qed.
End SequenceFacts.

Lemma mod_period (a b : Z) : py.mod_ (a + b) b = py.mod_ a b.
Proof.
  unfold py.mod_.
  destruct (Z.eqb_spec b 0); [reflexivity|].
  f_equal.
  replace (a + b)%Z with (a + 1 * b)%Z by lia.
  apply Z_mod_plus_full.
Qed.

Section PlaybackFacts.
Context {T : Type}.
Variable t : list T.
Variable y : list (list T).
Variable sizes : list T.

Ltac run H x E :=
  match type of H with
  | bind ?c _ = Ok _ =>
      destruct c as [x|] eqn:E; cbn [bind] in H; [|discriminate H]
  end.

Lemma getitem2_inv (r : nat) (idx : Z) (v : T) :
  (0 <= idx)%Z -> getitem2 y r idx = Ok v ->
  exists row, nth_error y r = Some row /\ nth_error row (Z.to_nat idx) = Some v.
Proof.
  intros Hidx G; unfold getitem2 in G.
  run G row Erow. run G k Ek.
  apply getitem_ok in Erow, G.
  exists row; split; [exact Erow|].
  unfold py.index in Ek.
  destruct (Z.leb_spec 0 idx); [|lia].
  destruct (Z.ltb_spec idx (Z.of_nat (length row))); cbn [andb] in Ek.
  - injection Ek as <-; exact G.
  - destruct (Z.leb_spec (- Z.of_nat (length row)) idx);
      destruct (Z.ltb_spec idx 0); cbn [andb] in Ek; try discriminate; lia.
Qed.

Lemma getslice2_inv (r : nat) (stop : Z) (s : list T) :
  (0 <= stop)%Z -> getslice2 y r stop = Ok s ->
  exists row, nth_error y r = Some row /\ s = firstn (Z.to_nat stop) row.
Proof.
  intros Hs G; unfold getslice2 in G.
  run G row Erow. apply getitem_ok in Erow.
  injection G as <-.
  exists row; split; [exact Erow|apply slice_to_nonneg; exact Hs].
Qed.

Lemma row_total (r : nat) :
  Forall (fun row => length row = length t) y -> r < length y ->
  exists row, py.getitem y r = Ok row /\ length row = length t.
Proof.
  intros Hy Hr.
  destruct (getitem_total y r Hr) as (row & G).
  exists row; split; [exact G|].
  apply getitem_ok, nth_error_In in G.
  rewrite Forall_forall in Hy; apply Hy; exact G.
Qed.

Lemma getitem2_total (r : nat) (idx : Z) :
  Forall (fun row => length row = length t) y -> r < length y ->
  (0 <= idx < Z.of_nat (length t))%Z ->
  exists v, getitem2 y r idx = Ok v.
Proof.
  intros Hy Hr Hidx.
  destruct (row_total r Hy Hr) as (row & G & L).
  unfold getitem2; rewrite G; cbn [bind].
  rewrite index_in_range by (rewrite L; exact Hidx); cbn [bind].
  apply getitem_total; lia.
Qed.

Lemma getslice2_total (r : nat) (stop : Z) :
  r < length y -> exists s, getslice2 y r stop = Ok s.
Proof.
  intros Hr.
  destruct (getitem_total y r Hr) as (row & G).
  unfold getslice2; rewrite G; cbn [bind]; eauto.
Qed.

Lemma update_loop_inv (idx : Z) :
  forall lines i trails lines' trails',
    update_loop y sizes idx i lines trails = Ok (lines', trails') ->
    length lines' = length lines /\
    length trails' = length trails /\
    (forall j, j < i -> nth_error trails' j = nth_error trails j) /\
    forall k line, nth_error lines k = Some line ->
      exists px py_ sz trail tx ty,
        getitem2 y (2 * (i + k)) idx = Ok px /\
        getitem2 y (2 * (i + k) + 1) idx = Ok py_ /\
        nth_error sizes (i + k) = Some sz /\
        nth_error trails (i + k) = Some trail /\
        getslice2 y (2 * (i + k)) (idx + 1) = Ok tx /\
        getslice2 y (2 * (i + k) + 1) (idx + 1) = Ok ty /\
        nth_error lines' k
          = Some (Line2D.set_markersize (Line2D.set_data line [px] [py_]) sz) /\
        nth_error trails' (i + k) = Some (Line2D.set_data trail tx ty).
Proof.
  induction lines as [|line rest IH]; intros i trails lines' trails' U.
  - cbn [update_loop] in U; injection U as <- <-.
    repeat split; intros; try reflexivity.
    destruct k; discriminate.
  - cbn [update_loop] in U.
    run U px Epx. run U py_ Epy. run U sz Esz. run U trail Etrail.
    run U tx Etx. run U ty Ety. run U done Edone.
    destruct done as [rest' trails2]; cbn [fst snd] in U; injection U as <- <-.
    apply getitem_ok in Esz, Etrail.
    assert (Li : i < length trails) by (apply nth_error_Some; congruence).
    destruct (IH _ _ _ _ Edone) as (L1 & L2 & Hearly & Hk).
    rewrite setitem_length in L2.
    split; [cbn [length]; lia|].
    split; [exact L2|].
    split.
    + intros j Hj. rewrite Hearly by lia. apply setitem_other; lia.
    + intros [|k] ln Hln; cbn [nth_error] in Hln.
      * injection Hln as <-. rewrite Nat.add_0_r.
        exists px, py_, sz, trail, tx, ty.
        repeat (split; [assumption|]).
        split; [reflexivity|].
        rewrite Hearly by lia. apply setitem_same; exact Li.
      * destruct (Hk k ln Hln)
          as (qx & qy & qs & qt & ux & uy & G1 & G2 & G3 & G4 & G5 & G6 & G7 & G8).
        rewrite setitem_other in G4 by lia.
        replace (i + S k) with (S i + k) by lia.
        exists qx, qy, qs, qt, ux, uy.
        repeat (split; [assumption|]). exact G8.
Qed.

Lemma update_loop_total (idx : Z) :
  Forall (fun row => length row = length t) y ->
  (0 <= idx < Z.of_nat (length t))%Z ->
  forall lines i trails,
    2 * (i + length lines) <= length y ->
    i + length lines <= length sizes ->
    i + length lines <= length trails ->
    exists done, update_loop y sizes idx i lines trails = Ok done.
Proof.
  intros Hy Hidx.
  induction lines as [|line rest IH]; intros i trails Ly Ls Lt;
    cbn [update_loop]; [eauto|].
  cbn [length] in Ly, Ls, Lt.
  destruct (getitem2_total (2 * i) idx Hy ltac:(lia) Hidx) as (px & ->).
  destruct (getitem2_total (2 * i + 1) idx Hy ltac:(lia) Hidx) as (py_ & ->).
  destruct (getitem_total sizes i ltac:(lia)) as (sz & ->).
  destruct (getitem_total trails i ltac:(lia)) as (trail & ->).
  destruct (getslice2_total (2 * i) (idx + 1) ltac:(lia)) as (tx & ->).
  destruct (getslice2_total (2 * i + 1) (idx + 1) ltac:(lia)) as (ty & ->).
  cbn [bind].
  destruct (IH (S i) (py.setitem trails i (Line2D.set_data trail tx ty)))
    as (done & ->); try lia.
  - rewrite setitem_length; lia.
  - cbn [bind]; eauto.
Qed.
End PlaybackFacts.

Lemma two_sample_playable :
  playable two_sample_t two_sample_y three_sizes three_lines three_trails.
Proof.
  unfold playable.
  split; [discriminate|].
  split; [repeat constructor|].
  cbn; lia.
Qed.

Lemma update_period {T : Type} (t : list T) (y : list (list T)) (sizes : list T)
    (lines trails : list (Line2D.artist T)) (frame : Z) :
  update t y sizes lines trails (frame + Z.of_nat (length t))
  = update t y sizes lines trails frame.
Proof. unfold update; now rewrite mod_period. Qed.

Lemma update_total {T : Type} (t : list T) (y : list (list T)) (sizes : list T)
    (lines trails : list (Line2D.artist T)) (frame : Z) :
  playable t y sizes lines trails ->
  exists lines' trails',
    update t y sizes lines trails frame = Ok (lines', trails') /\
    update_loop y sizes (frame mod Z.of_nat (length t)) 0 lines trails
    = Ok (lines', trails') /\
    (0 <= frame mod Z.of_nat (length t) < Z.of_nat (length t))%Z.
Proof.
  intros (Ht & Hy & Ly & Ls & Lt).
  assert (Hlen : (0 < Z.of_nat (length t))%Z)
    by (destruct t; [congruence|cbn [length]; lia]).
  assert (Hidx := Z.mod_pos_bound frame _ Hlen).
  unfold update, py.mod_.
  destruct (Z.eqb_spec (Z.of_nat (length t)) 0); [lia|]; cbn [bind].
  destruct (update_loop_total t y sizes _ Hy Hidx lines 0 trails)
    as ([lines' trails'] & E); try (cbn [Nat.add]; lia).
  exists lines', trails'; repeat split; try assumption; lia.
Qed.

(** C7.  For every trajectory and every frame index [frame >= 0], the
    frame [frame + len(t)] produces the same artists as [frame]; and on a
    playable trajectory [update] reads the stored sample at index
    [frame mod len(t)]: the marker of each body is exactly the pair
    [y[2i, idx], y[2i+1, idx]], one stored value per coordinate, nothing
    interpolated. *)
Theorem update_samples_modulo {T : Type} (t : list T) (y : list (list T))
    (sizes : list T) (lines trails : list (Line2D.artist T)) (frame : Z) :
  (0 <= frame)%Z ->
  update t y sizes lines trails (frame + Z.of_nat (length t))
  = update t y sizes lines trails frame /\
  (playable t y sizes lines trails ->
   exists lines' trails',
     update t y sizes lines trails frame = Ok (lines', trails') /\
     forall i line, nth_error lines i = Some line ->
       exists rx ry px py_ line',
         nth_error y (2 * i) = Some rx /\
         nth_error y (2 * i + 1) = Some ry /\
         nth_error rx (Z.to_nat (frame mod Z.of_nat (length t))) = Some px /\
         nth_error ry (Z.to_nat (frame mod Z.of_nat (length t))) = Some py_ /\
         nth_error lines' i = Some line' /\
         Line2D.xdata line' = [px] /\ Line2D.ydata line' = [py_]).
Proof.
  intros Hframe.
  split; [apply update_period|].
  intros Hplay.
  destruct (update_total t y sizes lines trails frame Hplay)
    as (lines' & trails' & U & Uloop & Hidx).
  exists lines', trails'; split; [exact U|].
  intros i line Hline.
  destruct (update_loop_inv y sizes _ _ _ _ _ _ Uloop) as (_ & _ & _ & Hk).
  destruct (Hk i line Hline)
    as (px & py_ & sz & trail & tx & ty & G1 & G2 & _ & _ & _ & _ & G7 & _).
  cbn [Nat.add] in G1, G2.
  destruct (getitem2_inv y _ _ _ (proj1 Hidx) G1) as (rx & Rx & Px).
  destruct (getitem2_inv y _ _ _ (proj1 Hidx) G2) as (ry & Ry & Py).
  exists rx, ry, px, py_.
  eexists; repeat split; eassumption || reflexivity.
Qed.

Lemma update_samples_modulo_witness :
  (0 <= 5)%Z /\
  update two_sample_t two_sample_y three_sizes three_lines three_trails
    (5 + Z.of_nat (length two_sample_t))
  = update two_sample_t two_sample_y three_sizes three_lines three_trails 5 /\
  (playable two_sample_t two_sample_y three_sizes three_lines three_trails ->
   exists lines' trails',
     update two_sample_t two_sample_y three_sizes three_lines three_trails 5
     = Ok (lines', trails') /\
     forall i line, nth_error three_lines i = Some line ->
       exists rx ry px py_ line',
         nth_error two_sample_y (2 * i) = Some rx /\
         nth_error two_sample_y (2 * i + 1) = Some ry /\
         nth_error rx (Z.to_nat (5 mod Z.of_nat (length two_sample_t))) = Some px /\
         nth_error ry (Z.to_nat (5 mod Z.of_nat (length two_sample_t))) = Some py_ /\
         nth_error lines' i = Some line' /\
         Line2D.xdata line' = [px] /\ Line2D.ydata line' = [py_]).
Proof.
  split; [lia|].
  apply (update_samples_modulo two_sample_t two_sample_y three_sizes
           three_lines three_trails 5); lia.
Defined.

(* The frame after the last sample of the two-sample run shows sample 0
   again. *)
Example update_wraps_to_first_sample :
  update two_sample_t two_sample_y three_sizes three_lines three_trails 2
  = update two_sample_t two_sample_y three_sizes three_lines three_trails 0.
Proof. vm_compute; reflexivity. Qed.

(** C8, as stated, fails once playback wraps: on the two-sample run, frame
    index 2 maps back to sample 0 and the trail of body 0 holds one point,
    while the slice of its history from index 0 to 2 inclusive is the whole
    two-point history. *)
Lemma trail_restarts_on_wrap :
  exists lines' trails' trail row,
    update two_sample_t two_sample_y three_sizes three_lines three_trails 2
    = Ok (lines', trails') /\
    nth_error trails' 0 = Some trail /\
    nth_error two_sample_y 0 = Some row /\
    Line2D.xdata trail = [float_of_Z 0] /\
    py.slice_to row (2 + 1) = [float_of_Z 0; float_of_Z 100] /\
    Line2D.xdata trail <> py.slice_to row (2 + 1).
Proof.
  do 4 eexists.
  split; [vm_compute; reflexivity|].
  split; [reflexivity|].
  split; [reflexivity|].
  split; [reflexivity|].
  split; [vm_compute; reflexivity|].
  vm_compute; discriminate.
Qed.

(** C8, amended.  After [update(frame)], the trail of every body is the
    slice of that body's two position rows from index 0 to
    [frame mod len(t)] inclusive, read from [y] alone; while
    [frame < len(t)] this is the slice from 0 to [frame] inclusive. *)
Theorem update_trail_prefix {T : Type} (t : list T) (y : list (list T))
    (sizes : list T) (lines trails : list (Line2D.artist T)) (frame : Z) :
  (0 <= frame)%Z ->
  playable t y sizes lines trails ->
  exists lines' trails',
    update t y sizes lines trails frame = Ok (lines', trails') /\
    forall i, i < length lines ->
      exists rx ry trail',
        nth_error y (2 * i) = Some rx /\
        nth_error y (2 * i + 1) = Some ry /\
        nth_error trails' i = Some trail' /\
        Line2D.xdata trail'
          = firstn (Z.to_nat (frame mod Z.of_nat (length t)) + 1) rx /\
        Line2D.ydata trail'
          = firstn (Z.to_nat (frame mod Z.of_nat (length t)) + 1) ry /\
        ((frame < Z.of_nat (length t))%Z ->
         Line2D.xdata trail' = firstn (Z.to_nat frame + 1) rx /\
         Line2D.ydata trail' = firstn (Z.to_nat frame + 1) ry).
Proof.
  intros Hframe Hplay.
  destruct (update_total t y sizes lines trails frame Hplay)
    as (lines' & trails' & U & Uloop & Hidx).
  exists lines', trails'; split; [exact U|].
  intros i Hi.
  destruct (nth_error lines i) as [line|] eqn:Hline;
    [|apply nth_error_None in Hline; lia].
  destruct (update_loop_inv y sizes _ _ _ _ _ _ Uloop) as (_ & _ & _ & Hk).
  destruct (Hk i line Hline)
    as (px & py_ & sz & trail & tx & ty & _ & _ & _ & _ & G5 & G6 & _ & G8).
  cbn [Nat.add] in G5, G6, G8.
  assert (Hs : (0 <= frame mod Z.of_nat (length t) + 1)%Z) by lia.
  destruct (getslice2_inv y _ _ _ Hs G5) as (rx & Rx & ->).
  destruct (getslice2_inv y _ _ _ Hs G6) as (ry & Ry & ->).
  assert (Hstop :
    Z.to_nat (frame mod Z.of_nat (length t) + 1)
    = Z.to_nat (frame mod Z.of_nat (length t)) + 1)
    by (rewrite Z2Nat.inj_add by lia; reflexivity).
  rewrite Hstop in G8.
  exists rx, ry; eexists.
  split; [exact Rx|]. split; [exact Ry|]. split; [exact G8|].
  cbn [Line2D.set_data Line2D.xdata Line2D.ydata].
  split; [reflexivity|]. split; [reflexivity|].
  intros Hlt; rewrite Z.mod_small by lia; split; reflexivity.
Qed.

Lemma update_trail_prefix_witness :
  (0 <= 1)%Z /\
  playable two_sample_t two_sample_y three_sizes three_lines three_trails /\
  exists lines' trails',
    update two_sample_t two_sample_y three_sizes three_lines three_trails 1
    = Ok (lines', trails') /\
    forall i, i < length three_lines ->
      exists rx ry trail',
        nth_error two_sample_y (2 * i) = Some rx /\
        nth_error two_sample_y (2 * i + 1) = Some ry /\
        nth_error trails' i = Some trail' /\
        Line2D.xdata trail'
          = firstn (Z.to_nat (1 mod Z.of_nat (length two_sample_t)) + 1) rx /\
        Line2D.ydata trail'
          = firstn (Z.to_nat (1 mod Z.of_nat (length two_sample_t)) + 1) ry /\
        ((1 < Z.of_nat (length two_sample_t))%Z ->
         Line2D.xdata trail' = firstn (Z.to_nat 1 + 1) rx /\
         Line2D.ydata trail' = firstn (Z.to_nat 1 + 1) ry).
Proof.
  split; [lia|].
  split; [exact two_sample_playable|].
  apply (update_trail_prefix two_sample_t two_sample_y three_sizes
           three_lines three_trails 1); [lia|exact two_sample_playable].
Defined.

(** ** The evaluation-time grid *)

Section GridFacts.
Context {T : Type} `{Scalar T}.

Lemma set_last_length (a : list T) (v : T) :
  length (np.set_last a v) = length a.
Proof.
  induction a as [|x [|x' xs] IH]; cbn [np.set_last length] in *;
    try reflexivity.
  now rewrite IH.
Qed.

Lemma set_last_before (a : list T) (v : T) (i : nat) :
  S i < length a -> nth_error (np.set_last a v) i = nth_error a i.
Proof.
  revert i; induction a as [|x [|x' xs] IH]; intros i L;
    cbn [length] in L; try lia.
  destruct i as [|i]; [reflexivity|].
  change (nth_error (np.set_last (x' :: xs) v) i = nth_error (x' :: xs) i).
  apply IH; cbn [length]; lia.
Qed.

Lemma set_last_at (a : list T) (v : T) :
  a <> [] -> nth_error (np.set_last a v) (length a - 1) = Some v.
Proof.
  induction a as [|x [|x' xs] IH]; intros N; [congruence|reflexivity|].
  change (nth_error (np.set_last (x' :: xs) v) (length xs) = Some v).
  replace (length xs) with (length (x' :: xs) - 1) by (cbn [length]; lia).
  apply IH; discriminate.
Qed.

Lemma linspace_length (start stop : T) (num : nat) :
  length (np.linspace start stop num) = num.
Proof.
  unfold np.linspace; destruct (Nat.ltb 1 num);
    rewrite ?set_last_length, !length_map, length_seq; reflexivity.
Qed.

Lemma linspace_interior (start stop : T) (num i : nat) :
  S i < num ->
  nth_error (np.linspace start stop num) i
  = Some (fadd (fmul (of_Z (Z.of_nat i))
                  (fdiv (fsub stop start) (of_Z (Z.of_nat (num - 1)))))
            start).
Proof.
  intros L; unfold np.linspace.
  destruct (Nat.ltb_spec 1 num); [|lia].
  rewrite set_last_before by (rewrite !length_map, length_seq; exact L).
  rewrite map_map, nth_error_map, nth_error_seq.
  destruct (Nat.ltb_spec i num); [reflexivity|lia].
Qed.

Lemma linspace_endpoint (start stop : T) (num : nat) :
  1 < num -> nth_error (np.linspace start stop num) (num - 1) = Some stop.
Proof.
  intros L; unfold np.linspace.
  destruct (Nat.ltb_spec 1 num); [|lia].
  set (a := map _ (map _ (seq 0 num))).
  assert (La : length a = num) by (unfold a; now rewrite !length_map, length_seq).
  replace (num - 1) with (length a - 1) by (rewrite La; reflexivity).
  apply set_last_at.
  intros E; rewrite E in La; cbn [length] in La; lia.
Qed.
End GridFacts.

Section ReferenceGrid.
Local Open Scope R_scope.

Lemma linspace_step_real (a b : R) (n k : nat) :
  (S k < n)%nat ->
  exists u v,
    nth_error (np.linspace a b n) k = Some u /\
    nth_error (np.linspace a b n) (S k) = Some v /\
    v - u = (b - a) / IZR (Z.of_nat (n - 1)).
Proof.
  intros L.
  assert (Hk : 0 <= IZR (Z.of_nat k)) by (apply IZR_le; lia).
  rewrite (linspace_interior a b n k L).
  destruct (Nat.eq_dec (S k) (n - 1)) as [E|N].
  - rewrite E, (linspace_endpoint a b n) by lia.
    do 2 eexists; split; [reflexivity|]; split; [reflexivity|].
    cbn [fadd fmul fdiv fsub of_Z R_Scalar].
    rewrite <- E, Nat2Z.inj_succ, succ_IZR.
    field; lra.
  - rewrite (linspace_interior a b n (S k)) by lia.
    do 2 eexists; split; [reflexivity|]; split; [reflexivity|].
    cbn [fadd fmul fdiv fsub of_Z R_Scalar].
    rewrite Nat2Z.inj_succ, succ_IZR.
    unfold Rdiv; ring.
Qed.

Lemma samples_minus_one : Z.of_nat (10000 - 1) = 9999%Z.
Proof. vm_compute; reflexivity. Qed.

Lemma samples_count : Z.of_nat 10000 = 10000%Z.
Proof. vm_compute; reflexivity. Qed.

(** C9, as stated, fails: 10,000 samples over [0, 100] with both end
    points included are 9,999 intervals apart, so the second sample is
    100/9999 and not 0.01. *)
Lemma t_eval_step_is_not_one_hundredth :
  exists u v,
    nth_error (@t_eval R _) 0 = Some u /\
    nth_error (@t_eval R _) 1 = Some v /\
    v - u = 100 / 9999 /\
    v - u <> 1 / 100.
Proof.
  destruct (linspace_step_real 0 100 10000 0) as (u & v & Hu & Hv & D).
  - apply Nat2Z.inj_lt; rewrite samples_count; cbn; lia.
  - rewrite samples_minus_one in D.
    exists u, v; split; [exact Hu|]; split; [exact Hv|].
    replace (100 - 0) with 100 in D by ring.
    split; [exact D|]. rewrite D. lra.
Qed.

(** C9, amended.  The grid a started simulation uses spans (0, 100) and
    has 10,000 samples, the first 0 and the last 100, equally spaced with
    step 100/9999 between consecutive evaluation times. *)
Theorem t_eval_uniform_grid :
  @t_span R _ = (0, 100) /\
  Z.of_nat (length (@t_eval R _)) = 10000%Z /\
  nth_error (@t_eval R _) 0 = Some 0 /\
  nth_error (@t_eval R _) (Z.to_nat 9999) = Some 100 /\
  forall k : nat, (Z.of_nat k < 9999)%Z ->
    exists u v,
      nth_error (@t_eval R _) k = Some u /\
      nth_error (@t_eval R _) (S k) = Some v /\
      v - u = 100 / 9999.
Proof.
  assert (E1 := samples_minus_one). assert (E0 := samples_count).
  split; [reflexivity|].
  split; [unfold t_eval; rewrite linspace_length; exact E0|].
  split.
  - unfold t_eval; rewrite linspace_interior
      by (apply Nat2Z.inj_lt; rewrite E0; cbn; lia).
    cbn [fadd fmul fdiv fsub of_Z R_Scalar Z.of_nat].
    f_equal; unfold Rdiv; ring.
  - split.
    + replace (Z.to_nat 9999) with (10000 - 1)%nat
        by (rewrite <- E1, Nat2Z.id; reflexivity).
      apply linspace_endpoint.
      apply Nat2Z.inj_lt; rewrite E0; cbn; lia.
    + intros k Hk.
      destruct (linspace_step_real 0 100 10000 k) as (u & v & Hu & Hv & D).
      * apply Nat2Z.inj_lt; rewrite E0, Nat2Z.inj_succ; lia.
      * rewrite E1 in D. replace (100 - 0) with 100 in D by ring.
        exists u, v; repeat split; assumption.
Qed.
End ReferenceGrid.

(** ** From a started simulation to playback *)

(* What [start_simulation] hands to [update]: the solver's [t] and [y],
   obtained on the reference span and grid, three sizes, three markers and
   three trails. *)
Lemma start_simulation_env {T : Type} `{Scalar T} (solve_ivp : ivp_solver T)
    (g : gui.vars T) (env : playback.env T) :
  start_simulation solve_ivp g = Ok env ->
  exists res,
    solve_ivp
      (fun t y =>
         three_body_equations t y
           [gui.mass1_var g; gui.mass2_var g; gui.mass3_var g])
      t_span
      [gui.x1_var g; gui.y1_var g; gui.x2_var g; gui.y2_var g;
       gui.x3_var g; gui.y3_var g;
       gui.vx1_var g; gui.vy1_var g; gui.vx2_var g; gui.vy2_var g;
       gui.vx3_var g; gui.vy3_var g]
      t_eval = Ok res /\
    playback.t env = OdeResult.t res /\
    playback.y env = OdeResult.y res /\
    length (playback.sizes env) = 3 /\
    length (playback.lines env) = 3 /\
    length (playback.trails env) = 3.
Proof.
  unfold start_simulation, run_simulation.
  destruct (solve_ivp _ t_span _ t_eval) as [res|e]; cbn [bind];
    [|discriminate].
  intros E; injection E as <-.
  exists res; repeat split.
Qed.

Lemma start_simulation_playable {T : Type} `{Scalar T} (solve_ivp : ivp_solver T)
    (g : gui.vars T) (env : playback.env T) :
  start_simulation solve_ivp g = Ok env ->
  playback.t env <> [] ->
  Forall (fun row => length row = length (playback.t env)) (playback.y env) ->
  6 <= length (playback.y env) ->
  playable (playback.t env) (playback.y env) (playback.sizes env)
    (playback.lines env) (playback.trails env).
Proof.
  intros E Ht Hy Ly.
  destruct (start_simulation_env solve_ivp g env E)
    as (res & _ & _ & _ & Ls & Ll & Lt).
  unfold playable; rewrite Ls, Ll, Lt.
  repeat split; try assumption; lia.
Qed.

Example start_simulation_default_run :
  exists env,
    start_simulation no_step_solver (@default_vars PrimFloat.float _) = Ok env /\
    playback.t env = [float_of_Z 0] /\
    playback.y env = map (fun c => [c]) default_state /\
    playback.sizes env = [float_of_Z 10; float_of_Z 10; float_of_Z 10].
Proof.
  eexists; split; [vm_compute; reflexivity|].
  repeat split; vm_compute; reflexivity.
Qed.

(** ** Concrete runs on binary64 *)

Example linspace_five :
  np.linspace (float_of_Z 0) (float_of_Z 1) 5
  = [float_of_Z 0;
     PrimFloat.div (float_of_Z 1) (float_of_Z 4);
     PrimFloat.div (float_of_Z 1) (float_of_Z 2);
     PrimFloat.div (float_of_Z 3) (float_of_Z 4);
     float_of_Z 1].
Proof. vm_compute; reflexivity. Qed.

Example default_velocities_pass_through :
  exists a, three_body_equations (float_of_Z 0) default_state default_masses
            = Ok (py.slice default_state 6 12 ++ a) /\ length a = 6.
Proof. eexists; split; [vm_compute; reflexivity|reflexivity]. Qed.

Example short_state_cannot_broadcast :
  three_body_equations (float_of_Z 0) [float_of_Z 0; float_of_Z 0] default_masses
  = Raise ValueError.
Proof. vm_compute; reflexivity. Qed.

Example update_on_empty_run :
  update (@nil PrimFloat.float) [] three_sizes three_lines three_trails 0
  = Raise ZeroDivisionError.
Proof. reflexivity. Qed.

(** * Further properties of the code *)

(** ** The evaluator on malformed inputs *)

Section EvaluatorEdges.
Context {T : Type} `{Scalar T}.

Lemma slice_firstn (l : list T) (n start stop : nat) :
  stop <= n -> py.slice (firstn n l) start stop = py.slice l start stop.
Proof.
  intros L; unfold py.slice.
  rewrite skipn_firstn_comm, firstn_firstn.
  f_equal; lia.
Qed.

Lemma length6_inv (y : list T) :
  6 <= length y ->
  exists x1 y1 x2 y2 x3 y3 v, y = x1 :: y1 :: x2 :: y2 :: x3 :: y3 :: v.
Proof.
  intros L.
  do 6 (destruct y as [|? y]; [cbn [length] in L; lia|]).
  repeat eexists.
Qed.

Lemma three_body_equations_eval6
    (t x1 y1 x2 y2 x3 y3 m0 m1 m2 : T) (v more : list T) :
  three_body_equations t (x1 :: y1 :: x2 :: y2 :: x3 :: y3 :: v)
    (m0 :: m1 :: m2 :: more)
  = Ok (firstn 2 v ++ firstn 2 (skipn 2 v) ++ firstn 2 (skipn 4 v)
        ++ np.zip_with fadd (pull m1 x1 y1 x2 y2) (pull m2 x1 y1 x3 y3)
        ++ np.zip_with fadd (pull m0 x2 y2 x1 y1) (pull m2 x2 y2 x3 y3)
        ++ np.zip_with fadd (pull m0 x3 y3 x1 y1) (pull m1 x3 y3 x2 y2)).
Proof. reflexivity. Qed.

(** X1.  With positions for three bodies present, a mass vector of fewer
    than three entries makes the evaluator raise [IndexError]. *)
Theorem three_body_equations_short_masses (t : T) (y masses : list T) :
  6 <= length y -> length masses < 3 ->
  three_body_equations t y masses = Raise IndexError.
Proof.
  intros Ly Lm.
  destruct (length6_inv y Ly) as (x1 & y1 & x2 & y2 & x3 & y3 & v & ->).
  destruct masses as [|m0 [|m1 [|m2 more]]]; cbn [length] in Lm;
    try lia; reflexivity.
Qed.

(** X2.  The evaluator reads the first twelve components of the state and
    nothing after them. *)
Theorem three_body_equations_first_twelve (t : T) (y masses : list T) :
  three_body_equations t (firstn 12 y) masses = three_body_equations t y masses.
Proof.
  unfold three_body_equations.
  rewrite !slice_firstn by lia.
  reflexivity.
Qed.

(** X3.  There is no length check: every state with at least six components
    is accepted, and the derivative has [min(len(y), 12)] components (the
    velocities that are present, then six acceleration components). *)
Theorem three_body_equations_any_length (t : T) (y masses : list T) :
  6 <= length y -> 3 <= length masses ->
  exists out,
    three_body_equations t y masses = Ok out /\
    length out = Nat.min (length y) 12 /\
    firstn (length out - 6) out = py.slice y 6 12.
Proof.
  intros Ly Lm.
  destruct (length6_inv y Ly) as (x1 & y1 & x2 & y2 & x3 & y3 & v & ->).
  destruct (length3_inv masses Lm) as (m0 & m1 & m2 & more & ->).
  rewrite three_body_equations_eval6.
  set (acc := np.zip_with fadd (pull m1 x1 y1 x2 y2) (pull m2 x1 y1 x3 y3)
              ++ np.zip_with fadd (pull m0 x2 y2 x1 y1) (pull m2 x2 y2 x3 y3)
              ++ np.zip_with fadd (pull m0 x3 y3 x1 y1) (pull m1 x3 y3 x2 y2)).
  assert (Lacc : length acc = 6) by reflexivity.
  assert (Ev : firstn 2 v ++ firstn 2 (skipn 2 v) ++ firstn 2 (skipn 4 v) ++ acc
               = firstn 6 v ++ acc).
  { rewrite <- (firstn_skipn 2 (firstn 6 v)), firstn_firstn.
    rewrite skipn_firstn_comm.
    rewrite <- (firstn_skipn 2 (firstn (6 - 2) (skipn 2 v))), firstn_firstn.
    rewrite skipn_firstn_comm, skipn_skipn, <- !app_assoc.
    reflexivity. }
  rewrite Ev.
  eexists; split; [reflexivity|].
  assert (Lout : length (firstn 6 v ++ acc) = length (firstn 6 v) + 6)
    by (rewrite length_app, Lacc; reflexivity).
  split.
  - rewrite Lout, length_firstn; cbn [length]; lia.
  - rewrite Lout, Nat.add_sub, firstn_app, firstn_all, Nat.sub_diag.
    cbn [firstn]; rewrite app_nil_r.
    reflexivity.
Qed.

(** X4.  A state of two, three or four components cannot be broadcast: the
    evaluator raises [ValueError]. *)
Theorem three_body_equations_too_short (t : T) (y masses : list T) :
  2 <= length y <= 4 -> 3 <= length masses ->
  three_body_equations t y masses = Raise ValueError.
Proof.
  intros [L U] Lm.
  destruct (length3_inv masses Lm) as (m0 & m1 & m2 & more & ->).
  destruct y as [|a [|b [|c [|d [|e y]]]]]; cbn [length] in L, U;
    try lia; reflexivity.
Qed.

(** X5.  Broadcasting hides three malformed lengths: a state of at most one
    component yields the empty derivative, and a state of five components
    yields six acceleration components, none of them an error. *)
Theorem three_body_equations_degenerate (t : T) (y masses : list T) :
  3 <= length masses ->
  (length y <= 1 -> three_body_equations t y masses = Ok []) /\
  (length y = 5 ->
   exists out, three_body_equations t y masses = Ok out /\ length out = 6).
Proof.
  intros Lm.
  destruct (length3_inv masses Lm) as (m0 & m1 & m2 & more & ->).
  split; intros L.
  - destruct y as [|a [|b y]]; cbn [length] in L; try lia; reflexivity.
  - destruct y as [|a [|b [|c [|d [|e [|f y]]]]]]; try discriminate L.
    eexists; split; reflexivity.
Qed.
End EvaluatorEdges.

Lemma three_body_equations_short_masses_witness :
  6 <= length (@default_state PrimFloat.float _) /\
  length [float_of_Z 1; float_of_Z 1] < 3 /\
  three_body_equations (float_of_Z 0) default_state [float_of_Z 1; float_of_Z 1]
  = Raise IndexError.
Proof.
  split; [cbn; lia|]. split; [cbn; lia|].
  apply (three_body_equations_short_masses (float_of_Z 0) default_state
           [float_of_Z 1; float_of_Z 1]); cbn; lia.
Defined.

Lemma three_body_equations_any_length_witness :
  6 <= length (firstn 9 (@default_state PrimFloat.float _)) /\
  3 <= length (@default_masses PrimFloat.float _) /\
  exists out,
    three_body_equations (float_of_Z 0) (firstn 9 default_state) default_masses
    = Ok out /\
    length out = Nat.min (length (firstn 9 (@default_state PrimFloat.float _))) 12 /\
    firstn (length out - 6) out = py.slice (firstn 9 default_state) 6 12.
Proof.
  split; [cbn; lia|]. split; [cbn; lia|].
  apply (three_body_equations_any_length (float_of_Z 0)
           (firstn 9 default_state) default_masses); cbn; lia.
Defined.

Lemma three_body_equations_too_short_witness :
  2 <= length (firstn 4 (@default_state PrimFloat.float _)) <= 4 /\
  3 <= length (@default_masses PrimFloat.float _) /\
  three_body_equations (float_of_Z 0) (firstn 4 default_state) default_masses
  = Raise ValueError.
Proof.
  split; [cbn; lia|]. split; [cbn; lia|].
  apply (three_body_equations_too_short (float_of_Z 0)
           (firstn 4 default_state) default_masses); cbn; lia.
Defined.

Lemma three_body_equations_degenerate_witness :
  3 <= length (@default_masses PrimFloat.float _) /\
  (length (firstn 1 (@default_state PrimFloat.float _)) <= 1 ->
   three_body_equations (float_of_Z 0) (firstn 1 default_state) default_masses
   = Ok []) /\
  (length (firstn 1 (@default_state PrimFloat.float _)) = 5 ->
   exists out,
     three_body_equations (float_of_Z 0) (firstn 1 default_state) default_masses
     = Ok out /\ length out = 6).
Proof.
  split; [cbn; lia|].
  apply (three_body_equations_degenerate (float_of_Z 0)
           (firstn 1 default_state) default_masses); cbn; lia.
Defined.

(* A five-component state on binary64: no error, six components. *)
Example five_component_state_runs :
  exists out,
    three_body_equations (float_of_Z 0) (firstn 5 default_state) default_masses
    = Ok out /\ length out = 6.
Proof. eexists; split; [vm_compute; reflexivity|reflexivity]. Qed.

(** ** Symmetries of the force law, over the reals *)

Section RealSymmetries.
Local Open Scope R_scope.

Lemma pull_translate (mj xi yi xj yj cx cy : R) :
  pull mj (xi + cx) (yi + cy) (xj + cx) (yj + cy) = pull mj xi yi xj yj.
Proof.
  rewrite !pull_real.
  replace (xj + cx - (xi + cx)) with (xj - xi) by ring.
  replace (yj + cy - (yi + cy)) with (yj - yi) by ring.
  reflexivity.
Qed.

(** X6.  Translation invariance: shifting the three positions by one and
    the same vector leaves the derivative unchanged. *)
Theorem three_body_equations_translate (t cx cy : R) (y masses : list R) :
  length y = 12%nat -> (3 <= length masses)%nat ->
  three_body_equations t (translate cx cy y) masses
  = three_body_equations t y masses.
Proof.
  intros Ly Lm.
  destruct (length12_inv y Ly)
    as (x1 & y1 & x2 & y2 & x3 & y3 & vx1 & vy1 & vx2 & vy2 & vx3 & vy3 & ->).
  destruct (length3_inv masses Lm) as (m0 & m1 & m2 & more & ->).
  unfold translate; cbn [firstn skipn np.zip_with app].
  rewrite !three_body_equations_eval, !pull_translate.
  reflexivity.
Qed.

(** X7.  The pull of body j on body i is attractive and inverse-square:
    for distinct positions its component along [r_j - r_i] is [m_j / d] and
    its squared length is [(m_j / d^2)^2], with [d = |r_j - r_i|]. *)
Theorem compute_acceleration_inverse_square (mj xi yi xj yj : R) :
  (xi, yi) <> (xj, yj) ->
  exists ax ay,
    compute_acceleration [xi; yi] [xj; yj] mj = Ok [ax; ay] /\
    0 < euclid (xj - xi, yj - yi) /\
    ax * (xj - xi) + ay * (yj - yi) = mj / euclid (xj - xi, yj - yi) /\
    ax ^ 2 + ay ^ 2 = (mj / euclid (xj - xi, yj - yi) ^ 2) ^ 2.
Proof.
  intros Hne.
  assert (Hd : 0 < euclid (xj - xi, yj - yi)).
  { apply euclid_pos. intros E; apply Hne.
    injection E as E1 E2; f_equal; lra. }
  rewrite compute_acceleration_planar, pull_real.
  do 2 eexists; split; [reflexivity|]. split; [exact Hd|].
  unfold euclid in *; cbn [fst snd] in *.
  set (q := (xj - xi) ^ 2 + (yj - yi) ^ 2) in *.
  assert (Hq : sqrt q * sqrt q = q)
    by (apply sqrt_sqrt; unfold q;
        apply Rplus_le_le_0_compat; apply pow2_ge_0).
  set (d := sqrt q) in *.
  assert (Hsum : (xj - xi) * (xj - xi) + (yj - yi) * (yj - yi) = d * d)
    by (rewrite Hq; unfold q; ring).
  split.
  - replace (mj * (xj - xi) / d ^ 3 * (xj - xi) + mj * (yj - yi) / d ^ 3 * (yj - yi))
      with (mj * ((xj - xi) * (xj - xi) + (yj - yi) * (yj - yi)) / d ^ 3)
      by (field; apply Rgt_not_eq; exact Hd).
    rewrite Hsum; field; apply Rgt_not_eq; exact Hd.
  - replace ((mj * (xj - xi) / d ^ 3) ^ 2 + (mj * (yj - yi) / d ^ 3) ^ 2)
      with (mj ^ 2 * ((xj - xi) * (xj - xi) + (yj - yi) * (yj - yi)) / d ^ 6)
      by (field; apply Rgt_not_eq; exact Hd).
    rewrite Hsum; field; apply Rgt_not_eq; exact Hd.
Qed.
End RealSymmetries.

Lemma three_body_equations_translate_witness :
  length (@default_state R _) = 12 /\ 3 <= length (@default_masses R _) /\
  three_body_equations 0%R (translate 3 (-2) default_state) default_masses
  = three_body_equations 0%R default_state default_masses.
Proof.
  split; [reflexivity|]. split; [cbn; lia|].
  apply (three_body_equations_translate 0%R 3%R (-2)%R default_state
           default_masses); [reflexivity|cbn; lia].
Defined.

Lemma compute_acceleration_inverse_square_witness :
  ((-1)%R, 0%R) <> (1%R, 0%R) /\
  exists ax ay,
    compute_acceleration [(-1)%R; 0%R] [1%R; 0%R] 1%R = Ok [ax; ay] /\
    (0 < euclid (1 - -1, 0 - 0))%R /\
    (ax * (1 - -1) + ay * (0 - 0) = 1 / euclid (1 - -1, 0 - 0))%R /\
    (ax ^ 2 + ay ^ 2 = (1 / euclid (1 - -1, 0 - 0) ^ 2) ^ 2)%R.
Proof.
  assert (Hne : ((-1)%R, 0%R) <> (1%R, 0%R))
    by (intros E; injection E; intros; lra).
  split; [exact Hne|].
  apply (compute_acceleration_inverse_square 1%R (-1)%R 0%R 1%R 0%R Hne).
Defined.

(** ** Playback: failures, what a frame preserves, and replay *)

Section PlaybackExtras.
Context {T : Type}.
Variable t : list T.
Variable y : list (list T).
Variable sizes : list T.

Lemma getitem_raises {A : Type} (l : list A) (i : nat) (e : exn) :
  py.getitem l i = Raise e -> e = IndexError.
Proof. unfold py.getitem; destruct (nth_error l i); congruence. Qed.

Lemma index_raises (n : nat) (k : Z) (e : exn) :
  py.index n k = Raise e -> e = IndexError.
Proof.
  unfold py.index.
  destruct ((0 <=? k)%Z && (k <? Z.of_nat n)%Z); [discriminate|].
  destruct ((- Z.of_nat n <=? k)%Z && (k <? 0)%Z); congruence.
Qed.

Lemma getitem2_raises (r : nat) (idx : Z) (e : exn) :
  getitem2 y r idx = Raise e -> e = IndexError.
Proof.
  unfold getitem2.
  destruct (py.getitem y r) as [row|e1] eqn:E1; cbn [bind];
    [|intros E; injection E as <-; eapply getitem_raises; eassumption].
  destruct (py.index (length row) idx) as [k|e2] eqn:E2; cbn [bind];
    [|intros E; injection E as <-; eapply index_raises; eassumption].
  apply getitem_raises.
Qed.

Lemma getslice2_raises (r : nat) (stop : Z) (e : exn) :
  getslice2 y r stop = Raise e -> e = IndexError.
Proof.
  unfold getslice2.
  destruct (py.getitem y r) as [row|e1] eqn:E1; cbn [bind];
    [discriminate|].
  intros E; injection E as <-; eapply getitem_raises; eassumption.
Qed.

Ltac fails H x E lem :=
  match type of H with
  | bind ?c _ = Raise _ =>
      destruct c as [x|?] eqn:E; cbn [bind] in H;
      [|injection H as <-; eapply lem; eassumption]
  end.

Lemma update_loop_raises (idx : Z) (e : exn) :
  forall lines i trails,
    update_loop y sizes idx i lines trails = Raise e -> e = IndexError.
Proof.
  induction lines as [|line rest IH]; intros i trails U;
    cbn [update_loop] in U; [discriminate|].
  fails U px Epx getitem2_raises.
  fails U py_ Epy getitem2_raises.
  fails U sz Esz (@getitem_raises T).
  fails U trail Etrail (@getitem_raises (Line2D.artist T)).
  fails U tx Etx getslice2_raises.
  fails U ty Ety getslice2_raises.
  destruct (update_loop y sizes idx (S i) rest _) as [done|e'] eqn:Edone;
    cbn [bind] in U; [discriminate|].
  injection U as <-; eapply IH; eassumption.
Qed.

(** X8.  [update] raises [ZeroDivisionError] exactly when no time was
    reported ([t] is empty); every other failure of [update] is an
    [IndexError]. *)
Theorem update_failures (lines trails : list (Line2D.artist T)) (frame : Z) :
  (update t y sizes lines trails frame = Raise ZeroDivisionError <-> t = []) /\
  (forall e, update t y sizes lines trails frame = Raise e ->
     e = ZeroDivisionError \/ e = IndexError).
Proof.
  unfold update, py.mod_.
  destruct t as [|t0 ts]; cbn [length].
  - cbn; split; [split; reflexivity|].
    intros e E; injection E as <-; left; reflexivity.
  - destruct (Z.eqb_spec (Z.of_nat (S (length ts))) 0) as [E0|_]; [lia|].
    cbn [bind]; split.
    + split; [|discriminate].
      intros U; apply update_loop_raises in U; discriminate U.
    + intros e U; right; eapply update_loop_raises; exact U.
Qed.

Lemma map_setitem_style {A B : Type} (f : A -> B) (l : list A) (i : nat) (a b : A) :
  nth_error l i = Some b -> f a = f b ->
  map f (py.setitem l i a) = map f l.
Proof.
  revert i; induction l as [|x xs IH]; intros [|i] N F;
    cbn [nth_error] in N; try discriminate; cbn [py.setitem map].
  - injection N as ->; now rewrite F.
  - f_equal; eapply IH; eassumption.
Qed.

Lemma update_loop_later (idx : Z) :
  forall lines i trails lines' trails',
    update_loop y sizes idx i lines trails = Ok (lines', trails') ->
    forall j, i + length lines <= j -> nth_error trails' j = nth_error trails j.
Proof.
  induction lines as [|line rest IH]; intros i trails lines' trails' U j Hj;
    cbn [update_loop] in U.
  - injection U as <- <-; reflexivity.
  - destruct (getitem2 y (2 * i) idx); cbn [bind] in U; [|discriminate].
    destruct (getitem2 y (2 * i + 1) idx); cbn [bind] in U; [|discriminate].
    destruct (py.getitem sizes i); cbn [bind] in U; [|discriminate].
    destruct (py.getitem trails i); cbn [bind] in U; [|discriminate].
    destruct (getslice2 y (2 * i) (idx + 1)); cbn [bind] in U; [|discriminate].
    destruct (getslice2 y (2 * i + 1) (idx + 1)); cbn [bind] in U; [|discriminate].
    destruct (update_loop y sizes idx (S i) rest _) as [[r1 r2]|] eqn:Edone;
      cbn [bind fst snd] in U; [|discriminate].
    injection U as <- <-.
    cbn [length] in Hj.
    rewrite (IH _ _ _ _ Edone j) by lia.
    apply setitem_other; lia.
Qed.

Lemma update_loop_styles (idx : Z) :
  forall lines i trails lines' trails',
    update_loop y sizes idx i lines trails = Ok (lines', trails') ->
    map marker_style lines' = map marker_style lines /\
    map trail_style trails' = map trail_style trails.
Proof.
  induction lines as [|line rest IH]; intros i trails lines' trails' U;
    cbn [update_loop] in U.
  - injection U as <- <-; split; reflexivity.
  - destruct (getitem2 y (2 * i) idx); cbn [bind] in U; [|discriminate].
    destruct (getitem2 y (2 * i + 1) idx); cbn [bind] in U; [|discriminate].
    destruct (py.getitem sizes i); cbn [bind] in U; [|discriminate].
    destruct (py.getitem trails i) as [trail|] eqn:Etrail; cbn [bind] in U;
      [|discriminate].
    destruct (getslice2 y (2 * i) (idx + 1)) as [tx|]; cbn [bind] in U;
      [|discriminate].
    destruct (getslice2 y (2 * i + 1) (idx + 1)) as [ty|]; cbn [bind] in U;
      [|discriminate].
    destruct (update_loop y sizes idx (S i) rest _) as [[r1 r2]|] eqn:Edone;
      cbn [bind fst snd] in U; [|discriminate].
    injection U as <- <-.
    destruct (IH _ _ _ _ Edone) as (IH1 & IH2).
    split.
    + cbn [map]; f_equal; exact IH1.
    + rewrite IH2. apply getitem_ok in Etrail.
      eapply map_setitem_style; [exact Etrail|reflexivity].
Qed.

(** X9.  A frame changes data only: [update] keeps the number of markers
    and of trails, the format and colour of every artist and the marker
    size of every trail, and leaves every trail beyond the markers as it
    was. *)
Theorem update_keeps_styles (lines trails lines' trails' : list (Line2D.artist T))
    (frame : Z) :
  update t y sizes lines trails frame = Ok (lines', trails') ->
  length lines' = length lines /\
  length trails' = length trails /\
  map marker_style lines' = map marker_style lines /\
  map trail_style trails' = map trail_style trails /\
  skipn (length lines) trails' = skipn (length lines) trails.
Proof.
  unfold update.
  destruct (py.mod_ frame (Z.of_nat (length t))) as [idx|]; cbn [bind];
    [|discriminate].
  intros U.
  destruct (update_loop_inv y sizes _ _ _ _ _ _ U) as (L1 & L2 & _ & _).
  destruct (update_loop_styles _ _ _ _ _ _ U) as (S1 & S2).
  repeat split; try assumption.
  apply nth_error_ext; intros n.
  rewrite !nth_error_skipn.
  apply (update_loop_later _ _ _ _ _ _ U); cbn [Nat.add]; lia.
Qed.
End PlaybackExtras.

Section PlaybackReplay.
Context {T : Type}.
Variable t : list T.
Variable y : list (list T).
Variable sizes : list T.

Lemma set_data_style (a b : Line2D.artist T) (xs ys : list T) :
  trail_style a = trail_style b ->
  Line2D.set_data a xs ys = Line2D.set_data b xs ys.
Proof.
  destruct a, b; unfold trail_style; cbn.
  intros E; injection E as -> -> ->; reflexivity.
Qed.

Lemma set_marker_style (a b : Line2D.artist T) (xs ys : list T) (sz : T) :
  marker_style a = marker_style b ->
  Line2D.set_markersize (Line2D.set_data a xs ys) sz
  = Line2D.set_markersize (Line2D.set_data b xs ys) sz.
Proof.
  destruct a, b; unfold marker_style; cbn.
  intros E; injection E as -> ->; reflexivity.
Qed.

(* The loop reads of its artists only their styles: two canvases with the
   same styles, and the same trails outside the range the loop writes,
   give the same result. *)
Lemma update_loop_congr (idx : Z) :
  forall lines lines2 i trails trails2,
    map marker_style lines = map marker_style lines2 ->
    map trail_style trails = map trail_style trails2 ->
    (forall j, j < i \/ i + length lines <= j ->
       nth_error trails j = nth_error trails2 j) ->
    update_loop y sizes idx i lines trails
    = update_loop y sizes idx i lines2 trails2.
Proof.
  induction lines as [|line rest IH]; intros [|line2 rest2] i trails trails2 Sl St Hout;
    try discriminate Sl; cbn [update_loop].
  - f_equal; f_equal.
    apply nth_error_ext; intros j; apply Hout; cbn [length]; lia.
  - cbn [map] in Sl.
    assert (Sline : marker_style line = marker_style line2) by congruence.
    assert (Srest : map marker_style rest = map marker_style rest2) by congruence.
    destruct (getitem2 y (2 * i) idx) as [px|]; cbn [bind]; [|reflexivity].
    destruct (getitem2 y (2 * i + 1) idx) as [py_|]; cbn [bind]; [|reflexivity].
    destruct (py.getitem sizes i) as [sz|]; cbn [bind]; [|reflexivity].
    assert (Hi : option_map trail_style (nth_error trails i)
                 = option_map trail_style (nth_error trails2 i))
      by (rewrite <- !nth_error_map, St; reflexivity).
    unfold py.getitem.
    destruct (nth_error trails i) as [a|] eqn:Ea;
      destruct (nth_error trails2 i) as [b|] eqn:Eb;
      cbn [option_map] in Hi; try discriminate Hi; cbn [bind]; [|reflexivity].
    assert (Hab : trail_style a = trail_style b) by congruence.
    destruct (getslice2 y (2 * i) (idx + 1)) as [tx|]; cbn [bind]; [|reflexivity].
    destruct (getslice2 y (2 * i + 1) (idx + 1)) as [ty|]; cbn [bind];
      [|reflexivity].
    rewrite (set_data_style a b tx ty Hab), (set_marker_style line line2 _ _ sz Sline).
    assert (La : i < length trails) by (apply nth_error_Some; congruence).
    assert (Lb : i < length trails2) by (apply nth_error_Some; congruence).
    rewrite (IH rest2 (S i) (py.setitem trails i (Line2D.set_data b tx ty))
               (py.setitem trails2 i (Line2D.set_data b tx ty)) Srest).
    + reflexivity.
    + rewrite (map_setitem_style trail_style trails i _ a Ea)
        by (rewrite Hab; reflexivity).
      rewrite (map_setitem_style trail_style trails2 i _ b Eb) by reflexivity.
      exact St.
    + intros j Hj. cbn [length] in Hout.
      destruct (Nat.eq_dec i j) as [<-|N].
      * rewrite !setitem_same by assumption; reflexivity.
      * rewrite !setitem_other by assumption. apply Hout; lia.
Qed.

(** X10.  Playback keeps no history in its artists: after any frame has
    been drawn, drawing a frame gives exactly what it would have given on
    the artists as they were before. *)
Theorem update_forgets_previous_frame
    (lines trails lines1 trails1 : list (Line2D.artist T)) (frame1 frame : Z) :
  update t y sizes lines trails frame1 = Ok (lines1, trails1) ->
  update t y sizes lines1 trails1 frame = update t y sizes lines trails frame.
Proof.
  unfold update.
  destruct (py.mod_ frame1 (Z.of_nat (length t))) as [idx1|]; cbn [bind];
    [|discriminate].
  intros U.
  destruct (py.mod_ frame (Z.of_nat (length t))) as [idx|]; cbn [bind];
    [|reflexivity].
  destruct (update_loop_inv y sizes _ _ _ _ _ _ U) as (L1 & _ & _ & _).
  destruct (update_loop_styles y sizes _ _ _ _ _ _ U) as (S1 & S2).
  apply update_loop_congr; try assumption.
  intros j Hj.
  apply (update_loop_later y sizes _ _ _ _ _ _ U); lia.
Qed.
End PlaybackReplay.

Lemma update_forgets_previous_frame_witness :
  exists lines1 trails1,
    update two_sample_t two_sample_y three_sizes three_lines three_trails 1
    = Ok (lines1, trails1) /\
    update two_sample_t two_sample_y three_sizes lines1 trails1 0
    = update two_sample_t two_sample_y three_sizes three_lines three_trails 0.
Proof.
  do 2 eexists; split; [vm_compute; reflexivity|].
  apply (update_forgets_previous_frame two_sample_t two_sample_y three_sizes
           three_lines three_trails _ _ 1 0).
  vm_compute; reflexivity.
Defined.

Lemma update_keeps_styles_witness :
  exists lines' trails',
    update two_sample_t two_sample_y three_sizes three_lines three_trails 1
    = Ok (lines', trails') /\
    length lines' = length three_lines /\
    length trails' = length three_trails /\
    map marker_style lines' = map marker_style three_lines /\
    map trail_style trails' = map trail_style three_trails /\
    skipn (length three_lines) trails' = skipn (length three_lines) three_trails.
Proof.
  do 2 eexists; split; [vm_compute; reflexivity|].
  apply (update_keeps_styles two_sample_t two_sample_y three_sizes
           three_lines three_trails _ _ 1).
  vm_compute; reflexivity.
Defined.

(** ** From Start to the frames *)

Section StartedPlayback.
Context {T : Type} `{Scalar T} `{Negate T}.
Variable solve_ivp : ivp_solver T.

(** X11.  When the solver returns at least one time and a rectangular [y]
    of at least six rows, a started simulation draws every frame without
    error, and after every frame the three markers have the sizes
    [10 * mass] and the colours of the colour boxes, the same sizes and
    colours as the markers of the preview. *)
Theorem started_simulation_plays (g : gui.vars T) (env : playback.env T)
    (w h : T) (a : Axes.axes T) (frame : Z) :
  start_simulation solve_ivp g = Ok env ->
  playback.t env <> [] ->
  Forall (fun row => length row = length (playback.t env)) (playback.y env) ->
  6 <= length (playback.y env) ->
  exists lines' trails',
    update (playback.t env) (playback.y env) (playback.sizes env)
      (playback.lines env) (playback.trails env) frame = Ok (lines', trails') /\
    map (@Line2D.markersize T) lines'
      = [Some (fmul (gui.mass1_var g) (of_Z 10));
         Some (fmul (gui.mass2_var g) (of_Z 10));
         Some (fmul (gui.mass3_var g) (of_Z 10))] /\
    map (@Line2D.color T) lines'
      = [gui.color1_var g; gui.color2_var g; gui.color3_var g] /\
    map (@Line2D.color T) trails'
      = [gui.color1_var g; gui.color2_var g; gui.color3_var g] /\
    map (@Line2D.markersize T) lines'
      = map (@Line2D.markersize T)
          (Axes.artists (draw_initial_positions g w h a)) /\
    map (@Line2D.color T) lines'
      = map (@Line2D.color T)
          (Axes.artists (draw_initial_positions g w h a)).
Proof.
  intros E Ht Hy Ly.
  assert (Hplay := start_simulation_playable solve_ivp g env E Ht Hy Ly).
  destruct (update_total _ _ _ _ _ frame Hplay)
    as (lines' & trails' & U & Uloop & _).
  exists lines', trails'; split; [exact U|].
  unfold start_simulation in E.
  destruct (run_simulation solve_ivp _ _ t_span t_eval) as [ty|]; cbn [bind] in E;
    [|discriminate].
  injection E as <-.
  cbn [playback.t playback.y playback.sizes playback.lines playback.trails map]
    in Uloop.
  destruct (update_loop_inv _ _ _ _ _ _ _ _ Uloop) as (L1 & L2 & _ & Hk).
  destruct (update_loop_styles _ _ _ _ _ _ _ _ Uloop) as (_ & S2).
  destruct lines' as [|l0 [|l1 [|l2 [|]]]]; try discriminate L1.
  destruct trails' as [|t0 [|t1 [|t2 [|]]]]; try discriminate L2.
  destruct (Hk 0 _ eq_refl) as (? & ? & s0 & ? & ? & ? & _ & _ & Z0 & _ & _ & _ & N0 & _).
  destruct (Hk 1 _ eq_refl) as (? & ? & s1 & ? & ? & ? & _ & _ & Z1 & _ & _ & _ & N1 & _).
  destruct (Hk 2 _ eq_refl) as (? & ? & s2 & ? & ? & ? & _ & _ & Z2 & _ & _ & _ & N2 & _).
  cbn in Z0, Z1, Z2, N0, N1, N2.
  injection Z0 as <-; injection Z1 as <-; injection Z2 as <-.
  injection N0 as ->; injection N1 as ->; injection N2 as ->.
  cbn [map trail_style Line2D.plot_empty Line2D.fmt Line2D.color
       Line2D.markersize] in S2.
  injection S2 as _ C0 _ _ C1 _ _ C2 _.
  cbn; rewrite C0, C1, C2.
  repeat split; reflexivity.
Qed.
End StartedPlayback.

Lemma started_simulation_plays_witness :
  exists env,
    start_simulation no_step_solver (@default_vars PrimFloat.float _) = Ok env /\
    playback.t env <> [] /\
    Forall (fun row => length row = length (playback.t env)) (playback.y env) /\
    6 <= length (playback.y env) /\
    exists lines' trails',
      update (playback.t env) (playback.y env) (playback.sizes env)
        (playback.lines env) (playback.trails env) 7 = Ok (lines', trails') /\
      map (@Line2D.markersize _) lines'
        = [Some (fmul (gui.mass1_var default_vars) (of_Z 10));
           Some (fmul (gui.mass2_var default_vars) (of_Z 10));
           Some (fmul (gui.mass3_var default_vars) (of_Z 10))] /\
      map (@Line2D.color _) lines'
        = [gui.color1_var (@default_vars PrimFloat.float _);
           gui.color2_var (@default_vars PrimFloat.float _);
           gui.color3_var (@default_vars PrimFloat.float _)] /\
      map (@Line2D.color _) trails'
        = [gui.color1_var (@default_vars PrimFloat.float _);
           gui.color2_var (@default_vars PrimFloat.float _);
           gui.color3_var (@default_vars PrimFloat.float _)] /\
      map (@Line2D.markersize _) lines'
        = map (@Line2D.markersize _)
            (Axes.artists
               (draw_initial_positions default_vars (float_of_Z 10)
                  (float_of_Z 10) add_subplot)) /\
      map (@Line2D.color _) lines'
        = map (@Line2D.color _)
            (Axes.artists
               (draw_initial_positions default_vars (float_of_Z 10)
                  (float_of_Z 10) add_subplot)).
Proof.
  eexists; split; [vm_compute; reflexivity|].
  split; [discriminate|].
  split; [repeat constructor|].
  split; [cbn; lia|].
  apply (started_simulation_plays no_step_solver default_vars _
           (float_of_Z 10) (float_of_Z 10) add_subplot 7).
  - vm_compute; reflexivity.
  - discriminate.
  - repeat constructor.
  - cbn; lia.
Defined.

(** ** The configuration handed to the solver *)

Section ReferenceConfiguration.
Local Open Scope R_scope.

Lemma strictly_increasing_by_steps (l : list R) :
  (forall k u v, nth_error l k = Some u -> nth_error l (S k) = Some v -> u < v) ->
  strictly_increasing l.
Proof.
  induction l as [|a [|b rest] IH]; intros Hstep; cbn [strictly_increasing];
    try exact I.
  split.
  - apply (Hstep 0%nat a b); reflexivity.
  - apply IH; intros k u v Hu Hv.
    apply (Hstep (S k) u v); assumption.
Qed.

Lemma t_eval_steps (k : nat) (u v : R) :
  nth_error (@t_eval R _) k = Some u ->
  nth_error (@t_eval R _) (S k) = Some v ->
  u < v.
Proof.
  intros Hu Hv.
  assert (L : (S k < length (@t_eval R _))%nat)
    by (apply nth_error_Some; congruence).
  unfold t_eval in L; rewrite linspace_length in L.
  destruct (linspace_step_real 0 100 10000 k L) as (u' & v' & Hu' & Hv' & D).
  unfold t_eval in Hu, Hv; cbn [of_Z R_Scalar] in Hu, Hv.
  rewrite Hu in Hu'; rewrite Hv in Hv'.
  injection Hu' as <-; injection Hv' as <-.
  rewrite samples_minus_one in D.
  lra.
Qed.

Lemma t_eval_within (x : R) : In x (@t_eval R _) -> 0 <= x <= 100.
Proof.
  intros Hin.
  destruct (In_nth_error _ _ Hin) as (k & Hk).
  assert (L : (k < length (@t_eval R _))%nat)
    by (apply nth_error_Some; congruence).
  unfold t_eval in L; rewrite linspace_length in L.
  assert (E0 := samples_count). assert (E1 := samples_minus_one).
  unfold t_eval in Hk; cbn [of_Z R_Scalar] in Hk.
  destruct (Nat.eq_dec k (10000 - 1)) as [->|N].
  - rewrite linspace_endpoint in Hk
      by (apply Nat2Z.inj_lt; rewrite E0; cbn; lia).
    injection Hk as <-; lra.
  - assert (Lk : (Z.of_nat k < 9999)%Z).
    { apply Nat2Z.inj_lt in L. rewrite E0 in L.
      assert (Z.of_nat k <> 9999%Z)
        by (intros E; apply N; apply Nat2Z.inj; rewrite E1; exact E).
      lia. }
    rewrite linspace_interior in Hk
      by (apply Nat2Z.inj_lt; rewrite Nat2Z.inj_succ, E0; lia).
    injection Hk as <-.
    cbn [fadd fmul fdiv fsub of_Z R_Scalar]; rewrite ?E1.
    assert (Hk0 : 0 <= IZR (Z.of_nat k)) by (apply IZR_le; lia).
    assert (Hk1 : IZR (Z.of_nat k) <= 9998) by (apply IZR_le; lia).
    lra.
Qed.

(** X12.  Whatever positive masses the sliders hold, the configuration
    [start_simulation] hands to the solver is valid: the evaluation times
    are non-empty, strictly increasing and inside the span (0, 100). *)
Theorem start_simulation_configuration_valid (m1 m2 m3 : R) :
  0 < m1 -> 0 < m2 -> 0 < m3 ->
  valid_configuration [m1; m2; m3] t_span t_eval /\
  Forall (fun x => fst (@t_span R _) <= x <= snd (@t_span R _)) t_eval.
Proof.
  intros H1 H2 H3.
  split.
  - unfold valid_configuration.
    split; [repeat constructor; assumption|].
    split.
    + intros E.
      assert (L := linspace_length (0 : R) 100 10000).
      unfold t_eval in E; cbn [of_Z R_Scalar] in E; rewrite E in L.
      apply (f_equal Z.of_nat) in L; rewrite samples_count in L; discriminate L.
    + split; [apply strictly_increasing_by_steps, t_eval_steps|].
      cbn; lra.
  - apply Forall_forall; intros x Hx.
    cbn [t_span fst snd of_Z R_Scalar]; apply t_eval_within; exact Hx.
Qed.
End ReferenceConfiguration.

Lemma start_simulation_configuration_valid_witness :
  (0 < 1)%R /\ (0 < 2)%R /\ (0 < 3)%R /\
  valid_configuration [1%R; 2%R; 3%R] t_span t_eval /\
  Forall (fun x => (fst (@t_span R _) <= x <= snd (@t_span R _))%R) t_eval.
Proof.
  assert (H1 : (0 < 1)%R) by lra.
  assert (H2 : (0 < 2)%R) by lra.
  assert (H3 : (0 < 3)%R) by lra.
  split; [exact H1|]. split; [exact H2|]. split; [exact H3|].
  apply (start_simulation_configuration_valid 1%R 2%R 3%R H1 H2 H3).
Defined.

(** X13.  For every speed the slider allows (10 to 200) the timer interval
    [1000 // speed] exists and lies between 5 and 100 milliseconds; it is
    the largest whole number of milliseconds with [interval * speed <= 1000]. *)
Theorem animation_interval_range (speed : Z) :
  (10 <= speed <= 200)%Z ->
  exists k,
    animation_interval speed = Ok k /\
    (5 <= k <= 100)%Z /\
    (k * speed <= 1000 < (k + 1) * speed)%Z.
Proof.
  intros [L U].
  unfold animation_interval, py.floordiv.
  destruct (Z.eqb_spec speed 0) as [E|_]; [lia|].
  exists (1000 / speed)%Z; split; [reflexivity|].
  assert (Hd := Z.div_mod 1000 speed ltac:(lia)).
  assert (Hm := Z.mod_pos_bound 1000 speed ltac:(lia)).
  split; nia.
Qed.

Lemma animation_interval_range_witness :
  (10 <= 100 <= 200)%Z /\
  exists k,
    animation_interval 100 = Ok k /\
    (5 <= k <= 100)%Z /\
    (k * 100 <= 1000 < (k + 1) * 100)%Z.
Proof.
  split; [lia|].
  apply (animation_interval_range 100); lia.
Defined.

(** ** The window *)

Section WindowFacts.
Context {T : Type} `{Scalar T} `{Negate T}.
Variable solve_ivp : ivp_solver T.

Lemma update_initial_positions_keeps (st : app.state T) :
  app.start_button (update_initial_positions st) = app.start_button st /\
  app.figure (update_initial_positions st) = app.figure st /\
  app.ax (update_initial_positions st) = app.ax st /\
  app.ani (update_initial_positions st) = app.ani st /\
  length (app.heap (update_initial_positions st)) = length (app.heap st).
Proof.
  unfold update_initial_positions.
  destruct (nth_error (app.heap st) (app.ax st)); cbn;
    rewrite ?setitem_length; repeat split.
Qed.

Lemma update_initial_positions_elsewhere (st : app.state T) (id : nat) :
  id <> app.ax st ->
  nth_error (app.heap (update_initial_positions st)) id
  = nth_error (app.heap st) id.
Proof.
  intros N; unfold update_initial_positions.
  destruct (nth_error (app.heap st) (app.ax st)); cbn; [|reflexivity].
  apply setitem_other; congruence.
Qed.

Lemma update_initial_positions_invisible (st : app.state T) :
  ~ In (app.ax st) (app.figure st) ->
  visible (update_initial_positions st) = visible st.
Proof.
  intros Hout; unfold visible.
  destruct (update_initial_positions_keeps st) as (_ & -> & _).
  apply map_ext_in; intros id Hid.
  apply update_initial_positions_elsewhere.
  intros E; apply Hout; rewrite <- E; exact Hid.
Qed.

Lemma clear_axes_at_length (hp : list (Axes.axes T)) (id : nat) :
  length (clear_axes_at hp id) = length hp.
Proof.
  unfold clear_axes_at; destruct (nth_error hp id);
    rewrite ?setitem_length; reflexivity.
Qed.

Lemma fig_clear_length (ids : list nat) (hp : list (Axes.axes T)) :
  length (fold_left clear_axes_at ids hp) = length hp.
Proof.
  revert hp; induction ids as [|id ids IH]; intros hp; cbn [fold_left];
    [reflexivity|].
  rewrite IH; apply clear_axes_at_length.
Qed.

(* The three ways the Start callback can end. *)
Lemma start_clicked_cases (st : app.state T) :
  let st' := fst (start_clicked solve_ivp st) in
  let outcome := snd (start_clicked solve_ivp st) in
  match start_simulation solve_ivp (app.vars st) with
  | Raise e => st' = with_button st tk.DISABLED /\ outcome = Raise e
  | Ok env =>
      app.start_button st' = tk.DISABLED /\
      app.ax st' = app.ax st /\
      app.figure st' = [length (app.heap st)] /\
      length (app.heap st') = S (length (app.heap st)) /\
      match animation_interval (app.speed_var st) with
      | Raise e => app.ani st' = app.ani st /\ outcome = Raise e
      | Ok k =>
          app.ani st'
          = Some {| animation.interval := k; animation.env := env;
                    animation.running := true |} /\
          outcome = Ok tt
      end
  end.
Proof.
  unfold start_clicked; cbn [with_button app.vars].
  destruct (start_simulation solve_ivp (app.vars st)) as [env|e];
    [|split; reflexivity].
  cbn [fig_clear with_figure with_heap with_button app.figure app.heap
       app.speed_var app.width_var app.height_var app.ax app.start_button
       app.ani app.vars].
  destruct (animation_interval (app.speed_var st)) as [k|e];
    cbn [fst snd with_ani with_figure with_heap app.figure app.heap app.ax
         app.start_button app.ani app];
    rewrite length_app, fig_clear_length; cbn [length];
    repeat split; lia.
Qed.

Lemma start_clicked_invariant (st : app.state T) :
  window_invariant st -> window_invariant (fst (start_clicked solve_ivp st)).
Proof.
  intros (Hb & (a & Hf & Ha) & Hx & Hd).
  assert (C := start_clicked_cases st); cbv zeta in C.
  destruct (start_simulation solve_ivp (app.vars st)) as [env|e].
  - destruct C as (B & X & F & L & _).
    unfold window_invariant; rewrite B, X, F, L.
    split; [discriminate|]. split; [eexists; split; [reflexivity|lia]|].
    split; [lia|]. intros _ [E|[]]; lia.
  - destruct C as (-> & _).
    unfold window_invariant.
    cbn [with_button app.start_button app.ani app.figure app.heap app.ax].
    split; [discriminate|]. split; [eauto|]. split; assumption.
Qed.

Lemma update_initial_positions_invariant (st : app.state T) :
  window_invariant st -> window_invariant (update_initial_positions st).
Proof.
  unfold window_invariant.
  destruct (update_initial_positions_keeps st) as (-> & -> & -> & -> & ->).
  trivial.
Qed.

Lemma handle_invariant (st : app.state T) (e : event) :
  window_invariant st -> window_invariant (handle solve_ivp st e).
Proof.
  intros Hinv; destruct e as [| | | |g speed w h]; cbn [handle].
  - apply start_clicked_invariant; exact Hinv.
  - unfold pause_simulation.
    destruct Hinv as (Hb & Hf & Hx & Hd).
    destruct (app.ani st) as [a|] eqn:Ea; [|unfold window_invariant; rewrite Ea; tauto].
    unfold window_invariant; cbn.
    split; [intros Eb; specialize (Hb Eb); discriminate|].
    split; [exact Hf|]. split; [exact Hx|].
    intros _; apply Hd; discriminate.
  - unfold resume_simulation.
    destruct Hinv as (Hb & Hf & Hx & Hd).
    destruct (app.ani st) as [a|] eqn:Ea; [|unfold window_invariant; rewrite Ea; tauto].
    unfold window_invariant; cbn.
    split; [intros Eb; specialize (Hb Eb); discriminate|].
    split; [exact Hf|]. split; [exact Hx|].
    intros _; apply Hd; discriminate.
  - unfold clear_simulation.
    apply update_initial_positions_invariant.
    destruct Hinv as (Hb & Hf & Hx & Hd).
    unfold window_invariant; cbn.
    split; [reflexivity|]. split; [exact Hf|]. split; [exact Hx|].
    intros N; now elim N.
  - apply update_initial_positions_invariant.
    destruct Hinv as (Hb & Hf & Hx & Hd).
    unfold window_invariant; cbn. tauto.
Qed.

Lemma reachable_window_invariant (st : app.state T) :
  reachable solve_ivp st -> window_invariant st.
Proof.
  induction 1 as [|st e _ IH _].
  - unfold window_invariant, create_gui, update_initial_positions; cbn.
    split; [reflexivity|]. split; [exists 0; split; [reflexivity|lia]|].
    split; [lia|]. intros N; now elim N.
  - apply handle_invariant; exact IH.
Qed.

(** X14.  In every state the window can reach: the Start button is enabled
    only while no animation exists (so a second animation is never started
    over a first), the figure holds exactly one axes, and whenever an
    animation exists the axes of the preview is not in the figure. *)
Theorem window_invariant_holds (st : app.state T) :
  reachable solve_ivp st ->
  (app.start_button st = tk.NORMAL -> app.ani st = None) /\
  (exists a, app.figure st = [a] /\ a < length (app.heap st)) /\
  app.ax st < length (app.heap st) /\
  (app.ani st <> None -> ~ In (app.ax st) (app.figure st)).
Proof.
  induction 1 as [|st e _ IH _].
  - unfold create_gui, update_initial_positions; cbn.
    split; [reflexivity|]. split; [exists 0; split; [reflexivity|lia]|].
    split; [lia|]. intros N; now elim N.
  - apply (handle_invariant st e); exact IH.
Qed.
End WindowFacts.

Section WindowPreview.
Context {T : Type} `{Scalar T} `{Negate T}.
Variable solve_ivp : ivp_solver T.

Lemma clear_simulation_invisible (st : app.state T) :
  ~ In (app.ax st) (app.figure st) ->
  visible (clear_simulation st) = visible st.
Proof.
  intros Hout; unfold clear_simulation.
  rewrite update_initial_positions_invisible by exact Hout.
  reflexivity.
Qed.

(** X15.  A Start that succeeds puts a new axes in the figure and leaves
    [create_gui]'s [ax] naming the old one, which the figure no longer
    holds: from then on [update_initial_positions] and Clear draw the
    preview on an axes that is not shown, and the figure looks as before. *)
Theorem start_detaches_preview (st st' : app.state T) :
  reachable solve_ivp st ->
  start_clicked solve_ivp st = (st', Ok tt) ->
  app.ani st' <> None /\
  ~ In (app.ax st') (app.figure st') /\
  visible (update_initial_positions st') = visible st' /\
  visible (clear_simulation st') = visible st'.
Proof.
  intros Hr E.
  destruct (reachable_window_invariant solve_ivp st Hr) as (_ & _ & Hx & _).
  assert (C := start_clicked_cases solve_ivp st); cbv zeta in C.
  rewrite E in C; cbn [fst snd] in C.
  destruct (start_simulation solve_ivp (app.vars st)) as [env|e];
    [|destruct C as (_ & C); discriminate C].
  destruct C as (_ & X & F & _ & C).
  destruct (animation_interval (app.speed_var st)) as [k|e];
    [|destruct C as (_ & C); discriminate C].
  destruct C as (A & _).
  assert (Hout : ~ In (app.ax st') (app.figure st'))
    by (rewrite X, F; intros [E'|[]]; lia).
  split; [rewrite A; discriminate|].
  split; [exact Hout|].
  split; [apply update_initial_positions_invisible|apply clear_simulation_invisible];
    exact Hout.
Qed.

(** X16.  Once the preview axes is out of the figure it never comes back:
    no callback puts it back, and Pause, Resume, Clear and every slider or
    colour change leave what the figure shows unchanged. *)
Theorem preview_detached_for_good (st : app.state T) (e : event) :
  reachable solve_ivp st ->
  ~ In (app.ax st) (app.figure st) ->
  enabled st e ->
  ~ In (app.ax (handle solve_ivp st e)) (app.figure (handle solve_ivp st e)) /\
  (e <> StartClicked -> visible (handle solve_ivp st e) = visible st).
Proof.
  intros Hr Hout _.
  destruct (reachable_window_invariant solve_ivp st Hr) as (_ & _ & Hx & _).
  destruct e as [| | | |g speed w h]; cbn [handle].
  - split; [|intros N; now elim N].
    assert (C := start_clicked_cases solve_ivp st); cbv zeta in C.
    destruct (start_simulation solve_ivp (app.vars st)) as [env|e].
    + destruct C as (_ & X & F & _).
      rewrite X, F; intros [E'|[]]; lia.
    + destruct C as (-> & _); exact Hout.
  - unfold pause_simulation; destruct (app.ani st);
      (split; [exact Hout|reflexivity]).
  - unfold resume_simulation; destruct (app.ani st);
      (split; [exact Hout|reflexivity]).
  - split; [|intros _; apply clear_simulation_invisible; exact Hout].
    unfold clear_simulation.
    destruct (update_initial_positions_keeps
                (with_button (with_ani st None) tk.NORMAL)) as (_ & -> & -> & _).
    exact Hout.
  - destruct (update_initial_positions_keeps (with_vars st g speed w h))
      as (_ & F & X & _).
    split; [rewrite F, X; exact Hout|].
    intros _.
    rewrite update_initial_positions_invisible by exact Hout.
    reflexivity.
Qed.

(** X17.  If the solver raises, the Start callback ends with that
    exception after it has disabled the Start button: no animation exists,
    the figure is unchanged, Start can no longer be pressed, and of all
    callbacks only Clear enables it again. *)
Theorem failed_start_needs_clear (st : app.state T) (e : exn) :
  reachable solve_ivp st ->
  enabled st StartClicked ->
  start_simulation solve_ivp (app.vars st) = Raise e ->
  snd (start_clicked solve_ivp st) = Raise e /\
  app.start_button (handle solve_ivp st StartClicked) = tk.DISABLED /\
  app.ani (handle solve_ivp st StartClicked) = None /\
  visible (handle solve_ivp st StartClicked) = visible st /\
  (forall e', enabled (handle solve_ivp st StartClicked) e' ->
     e' <> ClearClicked ->
     app.start_button (handle solve_ivp (handle solve_ivp st StartClicked) e')
     = tk.DISABLED) /\
  app.start_button (handle solve_ivp (handle solve_ivp st StartClicked) ClearClicked)
  = tk.NORMAL.
Proof.
  intros Hr Hen Hfail.
  destruct (reachable_window_invariant solve_ivp st Hr) as (Hb & _).
  cbn [enabled] in Hen. specialize (Hb Hen).
  assert (C := start_clicked_cases solve_ivp st); cbv zeta in C.
  rewrite Hfail in C; destruct C as (Est & Eout).
  cbn [handle]; rewrite Est.
  split; [exact Eout|].
  split; [reflexivity|].
  split; [exact Hb|].
  split; [reflexivity|].
  split.
  - intros e' En N.
    destruct e' as [| | | |g speed w h]; cbn [handle].
    + cbn in En; discriminate En.
    + unfold pause_simulation; cbn [with_button app.ani]; rewrite Hb; reflexivity.
    + unfold resume_simulation; cbn [with_button app.ani]; rewrite Hb; reflexivity.
    + now elim N.
    + destruct (update_initial_positions_keeps
                  (with_vars (with_button st tk.DISABLED) g speed w h))
        as (-> & _); reflexivity.
  - unfold clear_simulation.
    destruct (update_initial_positions_keeps
                (with_button (with_ani (with_button st tk.DISABLED) None) tk.NORMAL))
      as (-> & _); reflexivity.
Qed.
End WindowPreview.

Lemma started_window_reachable :
  reachable (T:=PrimFloat.float) no_step_solver
    (handle no_step_solver create_gui StartClicked).
Proof. apply reach_step; [apply reach_init|reflexivity]. Qed.

Lemma window_invariant_holds_witness :
  reachable (T:=PrimFloat.float) no_step_solver
    (handle no_step_solver create_gui StartClicked) /\
  (app.start_button (handle (T:=PrimFloat.float) no_step_solver create_gui StartClicked)
   = tk.NORMAL ->
   app.ani (handle (T:=PrimFloat.float) no_step_solver create_gui StartClicked) = None) /\
  (exists a,
     app.figure (handle (T:=PrimFloat.float) no_step_solver create_gui StartClicked) = [a] /\
     a < length (app.heap (handle (T:=PrimFloat.float) no_step_solver create_gui StartClicked))) /\
  app.ax (handle (T:=PrimFloat.float) no_step_solver create_gui StartClicked)
  < length (app.heap (handle (T:=PrimFloat.float) no_step_solver create_gui StartClicked)) /\
  (app.ani (handle (T:=PrimFloat.float) no_step_solver create_gui StartClicked) <> None ->
   ~ In (app.ax (handle (T:=PrimFloat.float) no_step_solver create_gui StartClicked))
        (app.figure (handle (T:=PrimFloat.float) no_step_solver create_gui StartClicked))).
Proof.
  split; [exact started_window_reachable|].
  apply (window_invariant_holds no_step_solver _ started_window_reachable).
Defined.

Lemma start_detaches_preview_witness :
  exists st',
    reachable (T:=PrimFloat.float) no_step_solver create_gui /\
    start_clicked no_step_solver create_gui = (st', Ok tt) /\
    app.ani st' <> None /\
    ~ In (app.ax st') (app.figure st') /\
    visible (update_initial_positions st') = visible st' /\
    visible (clear_simulation st') = visible st'.
Proof.
  eexists; split; [apply reach_init|].
  split; [vm_compute; reflexivity|].
  apply (start_detaches_preview no_step_solver create_gui _ (reach_init _)).
  vm_compute; reflexivity.
Defined.

Lemma started_window_detached :
  ~ In (app.ax (handle (T:=PrimFloat.float) no_step_solver create_gui StartClicked))
       (app.figure (handle (T:=PrimFloat.float) no_step_solver create_gui StartClicked)).
Proof. vm_compute; intros [E|[]]; discriminate E. Qed.

Lemma preview_detached_for_good_witness :
  reachable (T:=PrimFloat.float) no_step_solver
    (handle no_step_solver create_gui StartClicked) /\
  ~ In (app.ax (handle (T:=PrimFloat.float) no_step_solver create_gui StartClicked))
       (app.figure (handle (T:=PrimFloat.float) no_step_solver create_gui StartClicked)) /\
  enabled (handle (T:=PrimFloat.float) no_step_solver create_gui StartClicked)
    ClearClicked /\
  ~ In (app.ax (handle no_step_solver
                  (handle (T:=PrimFloat.float) no_step_solver create_gui StartClicked)
                  ClearClicked))
       (app.figure (handle no_step_solver
                      (handle (T:=PrimFloat.float) no_step_solver create_gui StartClicked)
                      ClearClicked)) /\
  (@ClearClicked PrimFloat.float <> StartClicked ->
   visible (handle no_step_solver
              (handle (T:=PrimFloat.float) no_step_solver create_gui StartClicked)
              ClearClicked)
   = visible (handle (T:=PrimFloat.float) no_step_solver create_gui StartClicked)).
Proof.
  split; [exact started_window_reachable|].
  split; [exact started_window_detached|].
  split; [exact I|].
  apply (preview_detached_for_good no_step_solver _ ClearClicked
           started_window_reachable started_window_detached I).
Defined.

Lemma failed_start_needs_clear_witness :
  reachable (T:=PrimFloat.float) rejecting_solver create_gui /\
  enabled (@create_gui PrimFloat.float _ _) StartClicked /\
  start_simulation rejecting_solver (app.vars (@create_gui PrimFloat.float _ _))
  = Raise ValueError /\
  snd (start_clicked rejecting_solver (@create_gui PrimFloat.float _ _))
  = Raise ValueError /\
  app.start_button (handle rejecting_solver (@create_gui PrimFloat.float _ _) StartClicked)
  = tk.DISABLED /\
  app.ani (handle rejecting_solver (@create_gui PrimFloat.float _ _) StartClicked) = None /\
  visible (handle rejecting_solver (@create_gui PrimFloat.float _ _) StartClicked)
  = visible (@create_gui PrimFloat.float _ _) /\
  (forall e',
     enabled (handle rejecting_solver (@create_gui PrimFloat.float _ _) StartClicked) e' ->
     e' <> ClearClicked ->
     app.start_button
       (handle rejecting_solver
          (handle rejecting_solver (@create_gui PrimFloat.float _ _) StartClicked) e')
     = tk.DISABLED) /\
  app.start_button
    (handle rejecting_solver
       (handle rejecting_solver (@create_gui PrimFloat.float _ _) StartClicked)
       ClearClicked)
  = tk.NORMAL.
Proof.
  split; [apply reach_init|].
  split; [reflexivity|].
  split; [reflexivity|].
  apply (failed_start_needs_clear rejecting_solver create_gui ValueError
           (reach_init _)); reflexivity.
Defined.

(* On binary64: after Start and Clear the figure still shows the axes of
   the animation, with its three markers and three trails, and none of
   the preview. *)
Example clear_after_start_shows_no_preview :
  map (option_map (fun a => length (Axes.artists a)))
    (visible (handle no_step_solver
                (handle (T:=PrimFloat.float) no_step_solver create_gui StartClicked)
                ClearClicked))
  = [Some 6] /\
  map (option_map (fun a => length (Axes.artists a)))
    (visible (@create_gui PrimFloat.float _ _))
  = [Some 3].
Proof. split; vm_compute; reflexivity. Qed.

(** ** Relabelling and torque, over the reals *)

Section RealRelabelling.
Local Open Scope R_scope.

Ltac same_components :=
  f_equal;
  repeat (apply (f_equal2 (@cons R)); [first [reflexivity | apply Rplus_comm]|]);
  reflexivity.

(** X18.  No body is special: exchanging bodies 1 and 2 (or 2 and 3) in the
    state and in the mass vector exchanges them in the derivative. *)
Theorem three_body_equations_relabel (t : R) (y masses : list R) :
  length y = 12%nat -> length masses = 3%nat ->
  exists out,
    three_body_equations t y masses = Ok out /\
    three_body_equations t (exchange12 y) (exchange12_masses masses)
    = Ok (exchange12 out) /\
    three_body_equations t (exchange23 y) (exchange23_masses masses)
    = Ok (exchange23 out).
Proof.
  intros Ly Lm.
  destruct (state_masses_inv y masses Ly Lm)
    as (x1 & y1 & x2 & y2 & x3 & y3 & vx1 & vy1 & vx2 & vy2 & vx3 & vy3
        & m0 & m1 & m2 & -> & ->).
  unfold exchange12, exchange23, exchange12_masses, exchange23_masses.
  cbn [py.slice Nat.sub skipn firstn app].
  rewrite !three_body_equations_eval, !pull_real.
  eexists; split; [reflexivity|].
  cbn [np.zip_with app py.slice Nat.sub skipn firstn fadd R_Scalar].
  split; same_components.
Qed.

(** X19.  The accelerations exert no net torque: for pairwise distinct
    positions, [sum_i masses[i] * (x_i * a_i.y - y_i * a_i.x) = 0], so the
    derivative of the total angular momentum is zero at every evaluation. *)
Theorem three_body_equations_torque (t : R) (y masses : list R) :
  length y = 12%nat -> length masses = 3%nat ->
  position y 0 <> position y 1 ->
  position y 0 <> position y 2 ->
  position y 1 <> position y 2 ->
  exists out,
    three_body_equations t y masses = Ok out /\
    mass masses 0 * (nth 0 y 0 * nth 7 out 0 - nth 1 y 0 * nth 6 out 0)
    + mass masses 1 * (nth 2 y 0 * nth 9 out 0 - nth 3 y 0 * nth 8 out 0)
    + mass masses 2 * (nth 4 y 0 * nth 11 out 0 - nth 5 y 0 * nth 10 out 0)
    = 0.
Proof.
  intros Ly Lm _ _ _.
  destruct (state_masses_inv y masses Ly Lm)
    as (x1 & y1 & x2 & y2 & x3 & y3 & vx1 & vy1 & vx2 & vy2 & vx3 & vy3
        & m0 & m1 & m2 & -> & ->).
  rewrite three_body_equations_eval, !pull_real.
  eexists; split; [reflexivity|].
  unfold mass; cbn [np.zip_with app nth fadd R_Scalar].
  rewrite (euclid_swap x1 x2 y1 y2), (euclid_swap x1 x3 y1 y3),
    (euclid_swap x2 x3 y2 y3).
  unfold Rdiv; ring.
Qed.
End RealRelabelling.

Lemma three_body_equations_relabel_witness :
  length (@default_state R _) = 12 /\ length (@default_masses R _) = 3 /\
  exists out,
    three_body_equations 0%R default_state default_masses = Ok out /\
    three_body_equations 0%R (exchange12 default_state)
      (exchange12_masses default_masses) = Ok (exchange12 out) /\
    three_body_equations 0%R (exchange23 default_state)
      (exchange23_masses default_masses) = Ok (exchange23 out).
Proof.
  split; [reflexivity|]. split; [reflexivity|].
  apply (three_body_equations_relabel 0%R default_state default_masses);
    reflexivity.
Defined.

Lemma three_body_equations_torque_witness :
  length (@default_state R _) = 12 /\ length (@default_masses R _) = 3 /\
  position default_state 0 <> position default_state 1 /\
  position default_state 0 <> position default_state 2 /\
  position default_state 1 <> position default_state 2 /\
  exists out,
    three_body_equations 0%R default_state default_masses = Ok out /\
    (mass default_masses 0
       * (nth 0 default_state 0 * nth 7 out 0 - nth 1 default_state 0 * nth 6 out 0)
     + mass default_masses 1
       * (nth 2 default_state 0 * nth 9 out 0 - nth 3 default_state 0 * nth 8 out 0)
     + mass default_masses 2
       * (nth 4 default_state 0 * nth 11 out 0 - nth 5 default_state 0 * nth 10 out 0)
     = 0)%R.
Proof.
  destruct default_positions_distinct as (H01 & H02 & H12).
  split; [reflexivity|]. split; [reflexivity|].
  split; [exact H01|]. split; [exact H02|]. split; [exact H12|].
  apply (three_body_equations_torque 0%R default_state default_masses);
    [reflexivity | reflexivity | exact H01 | exact H02 | exact H12].
Defined.
